(** * plaso storage interface: [BaseStore] and [StorageReader]

    A shallow embedding of [plaso/storage/interface.py].  The methods of
    [BaseStore] that have a body in the source are written in a small
    state-and-exception monad over the store object; the abstract methods
    are the operations of a type class, and a store in memory instantiates
    it for the statements that need the containers of a store.  *)

From Stdlib Require Import ZArith NArith Lia.
From Stdlib Require Strings.Byte.
From stdpp Require Import base strings list gmap pretty.

Open Scope string_scope.

(** ** Python exceptions and the store monad *)

(** The exception classes the interface raises or catches.  [IOError] and
    [OSError] are one class in Python 3.  The argument is the message,
    except for [UnboundLocalError], where it is the name of the local. *)
Inductive exception : Type :=
| IOError (message : string)
| ValueError (message : string)
| TypeError (message : string)
| UnicodeDecodeError (message : string)
| AttributeError (message : string)
| UnboundLocalError (name : string).

(** [str(exception)], as used by [{0!s}] in the messages of the source. *)
Definition str (e : exception) : string :=
  match e with
  | IOError m | ValueError m | TypeError m | UnicodeDecodeError m
  | AttributeError m => m
  | UnboundLocalError n =>
      "local variable '" ++ n ++ "' referenced before assignment"
  end.

(** [{0:d}] of a non-negative integer. *)
Definition format_d (n : nat) : string := pretty n.

Inductive result (A : Type) : Type :=
| Return (a : A)
| Raise (e : exception).
Arguments Return {A} a.
Arguments Raise {A} e.

Definition is_raise {A} (r : result A) : bool :=
  match r with Raise _ => true | Return _ => false end.

(** A method of an object of state [S]: it returns or raises, and leaves
    the object in a state either way (Python mutates in place, an exception
    does not roll anything back). *)
Definition M (S A : Type) : Type := S -> result A * S.

Definition ret {S A} (a : A) : M S A := fun s => (Return a, s).
Definition raise {S A} (e : exception) : M S A := fun s => (Raise e, s).
Definition bind {S A B} (m : M S A) (k : A -> M S B) : M S B :=
  fun s => match m s with
           | (Return a, s') => k a s'
           | (Raise e, s') => (Raise e, s')
           end.
Definition get {S} : M S S := fun s => (Return s, s).
Definition modify {S} (f : S -> S) : M S unit := fun s => (Return tt, f s).

(** [try: body finally: final]. An exception of [final] replaces the
    outcome of [body]. *)
Definition try_finally {S A} (body : M S A) (final : M S unit) : M S A :=
  fun s => match body s with
           | (r, s1) => match final s1 with
                        | (Return _, s2) => (r, s2)
                        | (Raise e, s2) => (Raise e, s2)
                        end
           end.

(** Lifting of a call that has no effect on the store. *)
Definition lift {S A} (r : result A) : M S A := fun s => (r, s).

Declare Scope store_scope.
Delimit Scope store_scope with store.
Notation "x <- m ;; k" := (bind m (fun x => k))
  (at level 100, m at next level, right associativity) : store_scope.
Notation "m ;; k" := (bind m (fun _ => k))
  (at level 100, right associativity) : store_scope.
Open Scope store_scope.

(** ** Attribute containers *)

(** Attribute values: the primitive scalars.  [None] as the value of an
    attribute is [None] of [option value]. *)
Inductive value : Type :=
| VBool (b : bool)
| VInt (z : Z)
| VStr (s : string).

Global Instance value_eq_dec : EqDecision value.
Proof. solve_decision. Defined.

(** An attribute container: its class constant [CONTAINER_TYPE], its
    attributes in the order of the object's [__dict__], and the identifier
    a store gives it when it is written ([None] before that). *)
Record AttributeContainer : Type := mkContainer {
  CONTAINER_TYPE : string;
  attributes : list (string * option value);
  _identifier : option nat
}.

Global Instance AttributeContainer_eq_dec : EqDecision AttributeContainer.
Proof. solve_decision. Defined.

(** [getattr(container, name, None)]: the first binding of [name]; an
    attribute that is not set reads as [None]. *)
Fixpoint lookup_attribute (name : string) (l : list (string * option value))
  : option value :=
  match l with
  | [] => None
  | (k, v) :: l' => if decide (k = name) then v else lookup_attribute name l'
  end.

Definition getattr (c : AttributeContainer) (name : string) : option value :=
  lookup_attribute name (attributes c).

(** Modelled from the spec: the [CONTAINER_TYPE] constants of the container
    classes of [plaso.containers], which the source imports; the tags are
    the ones of the data model (section 3). *)
Module container_types.
Definition analysis_report := "analysis-report".
Definition analysis_warning := "analysis-warning".
Definition event := "event".
Definition event_data := "event-data".
Definition event_data_stream := "event-data-stream".
Definition event_source := "event-source".
Definition event_tag := "event-tag".
Definition extraction_warning := "extraction-warning".
Definition preprocessing_warning := "preprocessing-warning".
Definition recovery_warning := "recovery-warning".
Definition session_completion := "session-completion".
Definition session_configuration := "session-configuration".
Definition session_start := "session-start".
Definition system_configuration := "system-configuration-artifact".
Definition task_completion := "task-completion".
Definition task_start := "task-start".
End container_types.

(** Modelled from the spec: [definitions.STORAGE_TYPE_SESSION] and
    [definitions.STORAGE_TYPE_TASK] of [plaso.lib.definitions]; the storage
    type is one of session and task. *)
Module definitions.
Definition STORAGE_TYPE_SESSION := "session".
Definition STORAGE_TYPE_TASK := "task".
End definitions.

Definition _CONTAINER_TYPE_ANALYSIS_REPORT := container_types.analysis_report.
Definition _CONTAINER_TYPE_ANALYSIS_WARNING := container_types.analysis_warning.
Definition _CONTAINER_TYPE_EVENT := container_types.event.
Definition _CONTAINER_TYPE_EVENT_DATA := container_types.event_data.
Definition _CONTAINER_TYPE_EVENT_DATA_STREAM := container_types.event_data_stream.
Definition _CONTAINER_TYPE_EVENT_SOURCE := container_types.event_source.
Definition _CONTAINER_TYPE_EVENT_TAG := container_types.event_tag.
Definition _CONTAINER_TYPE_EXTRACTION_WARNING := container_types.extraction_warning.
Definition _CONTAINER_TYPE_PREPROCESSING_WARNING :=
  container_types.preprocessing_warning.
Definition _CONTAINER_TYPE_RECOVERY_WARNING := container_types.recovery_warning.
Definition _CONTAINER_TYPE_SESSION_COMPLETION := container_types.session_completion.
Definition _CONTAINER_TYPE_SESSION_CONFIGURATION :=
  container_types.session_configuration.
Definition _CONTAINER_TYPE_SESSION_START := container_types.session_start.
Definition _CONTAINER_TYPE_SYSTEM_CONFIGURATION :=
  container_types.system_configuration.
Definition _CONTAINER_TYPE_TASK_COMPLETION := container_types.task_completion.
Definition _CONTAINER_TYPE_TASK_START := container_types.task_start.

Definition _CONTAINER_TYPES : list string := [
  _CONTAINER_TYPE_ANALYSIS_REPORT;
  _CONTAINER_TYPE_ANALYSIS_WARNING;
  _CONTAINER_TYPE_EXTRACTION_WARNING;
  _CONTAINER_TYPE_EVENT;
  _CONTAINER_TYPE_EVENT_DATA;
  _CONTAINER_TYPE_EVENT_DATA_STREAM;
  _CONTAINER_TYPE_EVENT_SOURCE;
  _CONTAINER_TYPE_EVENT_TAG;
  _CONTAINER_TYPE_PREPROCESSING_WARNING;
  _CONTAINER_TYPE_RECOVERY_WARNING;
  _CONTAINER_TYPE_SESSION_COMPLETION;
  _CONTAINER_TYPE_SESSION_CONFIGURATION;
  _CONTAINER_TYPE_SESSION_START;
  _CONTAINER_TYPE_SYSTEM_CONFIGURATION;
  _CONTAINER_TYPE_TASK_COMPLETION;
  _CONTAINER_TYPE_TASK_START ].

(** Container types that only should be used in a session store. *)
Definition _SESSION_STORE_ONLY_CONTAINER_TYPES : list string := [
  _CONTAINER_TYPE_SESSION_COMPLETION;
  _CONTAINER_TYPE_SESSION_START;
  _CONTAINER_TYPE_SYSTEM_CONFIGURATION ].

(** Container types that only should be used in a task store. *)
Definition _TASK_STORE_ONLY_CONTAINER_TYPES : list string := [
  _CONTAINER_TYPE_TASK_COMPLETION;
  _CONTAINER_TYPE_TASK_START ].

(** ** Bytes and text *)

(** [bytes.decode('utf-8')] with the default strict error handling: the
    code points of a well-formed UTF-8 byte sequence, or
    [UnicodeDecodeError] (overlong forms, surrogates, code points above
    U+10FFFF, stray or missing continuation bytes). *)
Definition is_continuation (b : N) : bool :=
  ((128 <=? b) && (b <=? 191))%N.

Definition low6 (b : N) : N := (b - 128)%N.

Fixpoint utf8_code_points (data : list Byte.byte) : option (list N) :=
  match data with
  | [] => Some []
  | b0 :: rest =>
    let n0 := Byte.to_N b0 in
    if (n0 <? 128)%N then
      cons n0 <$> utf8_code_points rest
    else if ((194 <=? n0) && (n0 <=? 223))%N then
      match rest with
      | b1 :: rest1 =>
        let n1 := Byte.to_N b1 in
        if is_continuation n1
        then cons ((n0 - 192) * 64 + low6 n1)%N <$> utf8_code_points rest1
        else None
      | _ => None
      end
    else if ((224 <=? n0) && (n0 <=? 239))%N then
      match rest with
      | b1 :: b2 :: rest2 =>
        let n1 := Byte.to_N b1 in
        let n2 := Byte.to_N b2 in
        if (is_continuation n1 && is_continuation n2
            && (negb (n0 =? 224) || (160 <=? n1))
            && (negb (n0 =? 237) || (n1 <=? 159)))%N
        then cons (((n0 - 224) * 64 + low6 n1) * 64 + low6 n2)%N
               <$> utf8_code_points rest2
        else None
      | _ => None
      end
    else if ((240 <=? n0) && (n0 <=? 244))%N then
      match rest with
      | b1 :: b2 :: b3 :: rest3 =>
        let n1 := Byte.to_N b1 in
        let n2 := Byte.to_N b2 in
        let n3 := Byte.to_N b3 in
        if (is_continuation n1 && is_continuation n2 && is_continuation n3
            && (negb (n0 =? 240) || (144 <=? n1))
            && (negb (n0 =? 244) || (n1 <=? 143)))%N
        then cons ((((n0 - 240) * 64 + low6 n1) * 64 + low6 n2) * 64
                   + low6 n3)%N <$> utf8_code_points rest3
        else None
      | _ => None
      end
    else None
  end.

Definition decode_utf8 (data : list Byte.byte) : result (list N) :=
  match utf8_code_points data with
  | Some text => Return text
  | None =>
      Raise (UnicodeDecodeError "'utf-8' codec can't decode bytes")
  end.

(** The objects that stand for serialized data in the store methods:
    [None], a bytes object or a str.  Nothing checks which one a caller
    passes or a serializer returns. *)
Inductive serialized : Type :=
| PyNone
| PyBytes (data : list Byte.byte)
| PyStr (text : list N).

(** The truth value of the object: [None], [b''] and [''] are false. *)
Definition truth (v : serialized) : bool :=
  match v with
  | PyNone | PyBytes [] | PyStr [] => false
  | _ => true
  end.

(** [v.decode('utf-8')]: a method of bytes; a str and [None] have no
    attribute [decode]. *)
Definition decode (v : serialized) : result (list N) :=
  match v with
  | PyBytes data => decode_utf8 data
  | PyStr _ => Raise (AttributeError "'str' object has no attribute 'decode'")
  | PyNone =>
      Raise (AttributeError "'NoneType' object has no attribute 'decode'")
  end.

(** ** The serializer and the profilers *)

(** The serializer class held in [self._serializer]: in the source the
    class [JSONAttributeContainerSerializer] of [plaso.serializer], used
    only through these two class methods.  [WriteSerialized] gives the
    serialized data, as whatever object the serializer makes of it;
    [ReadSerialized] takes decoded text and gives a container or [None]. *)
Class Serializer : Type := {
  WriteSerialized : AttributeContainer -> result serialized;
  ReadSerialized : list N -> result (option AttributeContainer)
}.

(** A profiler object, seen through the calls made on it, oldest first. *)
Inductive profiler_call : Type :=
| StartTiming (name : string)
| StopTiming (name : string).

Global Instance profiler_call_eq_dec : EqDecision profiler_call.
Proof. solve_decision. Defined.

(** ** The store object *)

(** The attributes [__init__] sets, and the state [backend] of the class
    that implements the abstract methods. *)
Record BaseStore (B : Type) : Type := mkBaseStore {
  _last_session : nat;
  _serializers_profiler : option (list profiler_call);
  _storage_profiler : option (list profiler_call);
  format_version : option Z;
  serialization_format : option string;
  storage_type : string;
  backend : B
}.
Arguments mkBaseStore {B}.
Arguments _last_session {B}.
Arguments _serializers_profiler {B}.
Arguments _storage_profiler {B}.
Arguments format_version {B}.
Arguments serialization_format {B}.
Arguments storage_type {B}.
Arguments backend {B}.

(** [BaseStore.__init__]. *)
Definition __init__ {B} (initial : B) (storage_type : string) : BaseStore B :=
  {| _last_session := 0;
     _serializers_profiler := None;
     _storage_profiler := None;
     format_version := None;
     serialization_format := None;
     storage_type := storage_type;
     backend := initial |}.

(** The abstract methods of [BaseStore] that its own methods call.  A
    generator is the list of the items it yields. *)
Class StoreBackend (B : Type) : Type := {
  _RaiseIfNotWritable : M (BaseStore B) unit;
  _WriteNewAttributeContainer : AttributeContainer -> M (BaseStore B) unit;
  GetAttributeContainers : string -> M (BaseStore B) (list AttributeContainer);
  HasAttributeContainers : string -> M (BaseStore B) bool
}.

Definition set_serializers_profiler {B}
    (profiler : option (list profiler_call)) (s : BaseStore B) : BaseStore B :=
  {| _last_session := _last_session s;
     _serializers_profiler := profiler;
     _storage_profiler := _storage_profiler s;
     format_version := format_version s;
     serialization_format := serialization_format s;
     storage_type := storage_type s;
     backend := backend s |}.

Definition set_storage_profiler {B}
    (profiler : option (list profiler_call)) (s : BaseStore B) : BaseStore B :=
  {| _last_session := _last_session s;
     _serializers_profiler := _serializers_profiler s;
     _storage_profiler := profiler;
     format_version := format_version s;
     serialization_format := serialization_format s;
     storage_type := storage_type s;
     backend := backend s |}.

Definition set_last_session {B} (n : nat) (s : BaseStore B) : BaseStore B :=
  {| _last_session := n;
     _serializers_profiler := _serializers_profiler s;
     _storage_profiler := _storage_profiler s;
     format_version := format_version s;
     serialization_format := serialization_format s;
     storage_type := storage_type s;
     backend := backend s |}.

Definition set_backend {B} (b : B) (s : BaseStore B) : BaseStore B :=
  {| _last_session := _last_session s;
     _serializers_profiler := _serializers_profiler s;
     _storage_profiler := _storage_profiler s;
     format_version := format_version s;
     serialization_format := serialization_format s;
     storage_type := storage_type s;
     backend := b |}.

(** ** Sessions *)

(** [isinstance(e, ValueError)]: [UnicodeDecodeError] is a subclass. *)
Definition is_ValueError (e : exception) : bool :=
  match e with
  | ValueError _ | UnicodeDecodeError _ => true
  | _ => false
  end.

Module sessions.

(** Modelled from the spec: the class [Session] of [plaso.containers.sessions],
    which the source imports.  A session is the aggregate of a session-start
    record with its session-configuration and session-completion records,
    all sharing one session identifier; merging configuration or completion
    into a session with another identifier is an error. The aggregate keeps
    the identifier and the attributes of each record merged into it. *)
Record Session : Type := mkSession {
  identifier : option value;
  start : option (list (string * option value));
  configuration : option (list (string * option value));
  completion : option (list (string * option value))
}.

(** Modelled from the spec: [Session()], a session nothing was merged
    into. *)
Definition Session_new : Session :=
  {| identifier := None; start := None;
     configuration := None; completion := None |}.

(** Modelled from the spec: the session identifier of a session-start,
    session-configuration or session-completion record. *)
Definition session_identifier (c : AttributeContainer) : option value :=
  getattr c "identifier".

(** Modelled from the spec: [Session.CopyAttributesFromSessionStart]; the
    session takes the identifier of the start record. *)
Definition CopyAttributesFromSessionStart
    (session : Session) (session_start : AttributeContainer) : Session :=
  {| identifier := session_identifier session_start;
     start := Some (attributes session_start);
     configuration := configuration session;
     completion := completion session |}.

(** Modelled from the spec: [Session.CopyAttributesFromSessionConfiguration];
    [ValueError] when the identifiers differ. *)
Definition CopyAttributesFromSessionConfiguration
    (session : Session) (session_configuration : AttributeContainer)
  : result Session :=
  if decide (identifier session = session_identifier session_configuration)
  then Return {| identifier := identifier session;
                 start := start session;
                 configuration := Some (attributes session_configuration);
                 completion := completion session |}
  else Raise (ValueError "Session identifier mismatch.").

(** Modelled from the spec: [Session.CopyAttributesFromSessionCompletion];
    [ValueError] when the identifiers differ. *)
Definition CopyAttributesFromSessionCompletion
    (session : Session) (session_completion : AttributeContainer)
  : result Session :=
  if decide (identifier session = session_identifier session_completion)
  then Return {| identifier := identifier session;
                 start := start session;
                 configuration := configuration session;
                 completion := Some (attributes session_completion) |}
  else Raise (ValueError "Session identifier mismatch.").

End sessions.

Global Instance Session_eq_dec : EqDecision sessions.Session.
Proof. solve_decision. Defined.

(** ** Generators and local variables *)

(** What a consumer that exhausts a generator sees: the items it yielded,
    then either the end of the iteration or an exception. *)
Record generated (A : Type) : Type := mkGenerated {
  yielded : list A;
  raised : option exception
}.
Arguments mkGenerated {A}.
Arguments yielded {A}.
Arguments raised {A}.

(** [next(generator)]: the next item and the rest, [None] for
    [StopIteration]. *)
Definition next {A} (generator : list A) : option (A * list A) :=
  match generator with
  | [] => None
  | item :: generator' => Some (item, generator')
  end.

(** A local variable of a function body: not assigned yet, or bound. *)
Inductive local (A : Type) : Type :=
| Unbound
| Bound (a : A).
Arguments Unbound {A}.
Arguments Bound {A} a.

(** Reading a local: [UnboundLocalError] before the first assignment. *)
Definition read_local {A} (name : string) (v : local A) : result A :=
  match v with
  | Bound a => Return a
  | Unbound => Raise (UnboundLocalError name)
  end.

(** The locals of [GetSessions] that live across loop iterations. *)
Record GetSessions_frame : Type := mkFrame {
  session_start_generator : list AttributeContainer;
  session_completion_generator : list AttributeContainer;
  session_configuration_generator : option (list AttributeContainer);
  session_completion : local AttributeContainer
}.

(** [try: r except ValueError: raise IOError(message)]. *)
Definition except_ValueError {A} (r : result A) (message : string) : result A :=
  match r with
  | Return a => Return a
  | Raise e => if is_ValueError e then Raise (IOError message) else Raise e
  end.

(** The first half of an iteration of the loop of [BaseStore.GetSessions]:
    the three [next] calls.  It gives the session start, the session
    configuration ([None] without a configuration generator), the local
    [session_completion] as the [try] leaves it, and the locals after the
    pulls. *)
Definition GetSessions_pull (session_index : nat) (f : GetSessions_frame)
  : result (AttributeContainer * option AttributeContainer
            * local AttributeContainer * GetSessions_frame) :=
  match next (session_start_generator f) with
  | None =>
      Raise (IOError ("Missing session start: " ++ format_d session_index))
  | Some (session_start, session_start_generator') =>
    let '(session_completion', session_completion_generator') :=
      match next (session_completion_generator f) with
      | Some (item, generator') => (Bound item, generator')
      | None => (session_completion f, session_completion_generator f)
      end in
    match
      match session_configuration_generator f with
      | Some generator =>
          match next generator with
          | Some (item, generator') => Return (Some item, Some generator')
          | None =>
              Raise (IOError ("Missing session configuration: "
                              ++ format_d session_index))
          end
      | None => Return (None, None)
      end
    with
    | Raise e => Raise e
    | Return (session_configuration, session_configuration_generator') =>
        Return (session_start, session_configuration, session_completion',
                {| session_start_generator := session_start_generator';
                   session_completion_generator := session_completion_generator';
                   session_configuration_generator :=
                     session_configuration_generator';
                   session_completion := session_completion' |})
    end
  end.

(** The second half: the session built from the records pulled.  A
    container object is true, so [if session_configuration:] asks whether it
    is not [None], and [if session_completion:] reads the local. *)
Definition GetSessions_merge (session_index : nat)
    (session_start : AttributeContainer)
    (session_configuration : option AttributeContainer)
    (session_completion : local AttributeContainer)
  : result sessions.Session :=
  let session :=
    sessions.CopyAttributesFromSessionStart
      sessions.Session_new session_start in
  match
    match session_configuration with
    | Some configuration =>
        except_ValueError
          (sessions.CopyAttributesFromSessionConfiguration
             session configuration)
          ("Session identifier mismatch for session configuration: "
           ++ format_d session_index)
    | None => Return session
    end
  with
  | Raise e => Raise e
  | Return session =>
    match read_local "session_completion" session_completion with
    | Raise e => Raise e
    | Return completion =>
        except_ValueError
          (sessions.CopyAttributesFromSessionCompletion session completion)
          ("Session identifier mismatch for session completion: "
           ++ format_d session_index)
    end
  end.

(** One iteration, up to the [yield]: the session yielded and the locals
    after it, or the exception that ends the generator. *)
Definition GetSessions_body (session_index : nat) (f : GetSessions_frame)
  : result (sessions.Session * GetSessions_frame) :=
  match GetSessions_pull session_index f with
  | Raise e => Raise e
  | Return (session_start, session_configuration, session_completion', f') =>
    match
      GetSessions_merge session_index session_start session_configuration
        session_completion'
    with
    | Raise e => Raise e
    | Return session => Return (session, f')
    end
  end.

(** [for session_index in range(session_index, session_index + count)]. *)
Fixpoint GetSessions_loop (count session_index : nat) (f : GetSessions_frame)
  : generated sessions.Session :=
  match count with
  | 0 => {| yielded := []; raised := None |}
  | S count' =>
    match GetSessions_body session_index f with
    | Raise e => {| yielded := []; raised := Some e |}
    | Return (session, f') =>
      let rest := GetSessions_loop count' (S session_index) f' in
      {| yielded := session :: yielded rest; raised := raised rest |}
    end
  end.

(** ** The methods of [BaseStore] *)

Section BaseStore.
Context {B : Type} {serializer : Serializer} {store_backend : StoreBackend B}.

(** [if self._serializers_profiler: self._serializers_profiler.<call>]. *)
Definition serializers_profiler_call (call : profiler_call)
  : M (BaseStore B) unit :=
  fun s => match _serializers_profiler s with
           | Some calls =>
               (Return tt, set_serializers_profiler (Some (calls ++ [call])%list) s)
           | None => (Return tt, s)
           end.

(** [if not serialized_data] holds for [None] and for empty data.  The
    [try] covers the decoding and [ReadSerialized]; its handlers are tried
    in order, and an exception that is none of theirs goes on to the caller
    after the [finally]. *)
Definition _DeserializeAttributeContainer
    (container_type : string) (serialized_data : serialized)
  : M (BaseStore B) (option AttributeContainer) :=
  if negb (truth serialized_data)
  then ret None
  else
    serializers_profiler_call (StartTiming container_type) ;;
    try_finally
      (match
         match decode serialized_data with
         | Return serialized_string => ReadSerialized serialized_string
         | Raise e => Raise e
         end
       with
       | Return attribute_container => ret attribute_container
       | Raise (UnicodeDecodeError _ as exception) =>
           raise (IOError ("Unable to decode serialized data: "
                           ++ str exception))
       | Raise ((TypeError _ | ValueError _) as exception) =>
           raise (IOError ("Unable to read serialized data: "
                           ++ str exception))
       | Raise e => raise e
       end)
      (serializers_profiler_call (StopTiming container_type)).

(** The data of [WriteSerialized] is returned as it is: nothing encodes
    it. *)
Definition _SerializeAttributeContainer (attribute_container : AttributeContainer)
  : M (BaseStore B) serialized :=
  serializers_profiler_call
    (StartTiming (CONTAINER_TYPE attribute_container)) ;;
  try_finally
    (attribute_container_data <- lift (WriteSerialized attribute_container) ;;
     if negb (truth attribute_container_data)
     then raise (IOError ("Unable to serialize attribute container: "
                          ++ CONTAINER_TYPE attribute_container ++ "."))
     else ret attribute_container_data)
    (serializers_profiler_call
       (StopTiming (CONTAINER_TYPE attribute_container))).

Definition AddAttributeContainer (container : AttributeContainer)
  : M (BaseStore B) unit :=
  _RaiseIfNotWritable ;;
  _WriteNewAttributeContainer container.

(** The statements of [GetSessions] before the loop: the generators it
    pulls from, with [session_completion] not assigned yet. *)
Definition GetSessions_generators : M (BaseStore B) GetSessions_frame :=
  session_start_generator <-
    GetAttributeContainers _CONTAINER_TYPE_SESSION_START ;;
  session_completion_generator <-
    GetAttributeContainers _CONTAINER_TYPE_SESSION_COMPLETION ;;
  has <- HasAttributeContainers _CONTAINER_TYPE_SESSION_CONFIGURATION ;;
  session_configuration_generator <-
    (if has : bool
     then generator <-
            GetAttributeContainers _CONTAINER_TYPE_SESSION_CONFIGURATION ;;
          ret (Some generator)
     else ret None) ;;
  ret {| session_start_generator := session_start_generator;
         session_completion_generator := session_completion_generator;
         session_configuration_generator := session_configuration_generator;
         session_completion := Unbound |}.

(** The generator, run to its end by the consumer.  The body of a generator
    function runs from the first [next], so an exception of the statements
    before the loop is one the consumer sees as well. *)
Definition GetSessions (s : BaseStore B)
  : generated sessions.Session * BaseStore B :=
  match GetSessions_generators s with
  | (Return f, s') => (GetSessions_loop (_last_session s') 1 f, s')
  | (Raise e, s') => ({| yielded := []; raised := Some e |}, s')
  end.

Definition SetSerializersProfiler (serializers_profiler : option (list profiler_call))
  : M (BaseStore B) unit :=
  modify (set_serializers_profiler serializers_profiler).

Definition SetStorageProfiler (storage_profiler : option (list profiler_call))
  : M (BaseStore B) unit :=
  modify (set_storage_profiler storage_profiler).

Definition WriteSessionCompletion (session_completion : AttributeContainer)
  : M (BaseStore B) unit :=
  _RaiseIfNotWritable ;;
  self <- get ;;
  if decide (storage_type self ≠ definitions.STORAGE_TYPE_SESSION)
  then raise (IOError "Session completion not supported by storage type.")
  else _WriteNewAttributeContainer session_completion.

Definition WriteSessionConfiguration (session_configuration : AttributeContainer)
  : M (BaseStore B) unit :=
  _RaiseIfNotWritable ;;
  has <- HasAttributeContainers _CONTAINER_TYPE_SYSTEM_CONFIGURATION ;;
  if negb has
  then _WriteNewAttributeContainer session_configuration
  else ret tt.

Definition WriteSessionStart (session_start : AttributeContainer)
  : M (BaseStore B) unit :=
  _RaiseIfNotWritable ;;
  self <- get ;;
  if decide (storage_type self ≠ definitions.STORAGE_TYPE_SESSION)
  then raise (IOError "Session start not supported by storage type.")
  else _WriteNewAttributeContainer session_start.

Definition WriteTaskCompletion (task_completion : AttributeContainer)
  : M (BaseStore B) unit :=
  _RaiseIfNotWritable ;;
  self <- get ;;
  if decide (storage_type self ≠ definitions.STORAGE_TYPE_TASK)
  then raise (IOError "Task start not supported by storage type.")
  else _WriteNewAttributeContainer task_completion.

Definition WriteTaskStart (task_start : AttributeContainer)
  : M (BaseStore B) unit :=
  _RaiseIfNotWritable ;;
  self <- get ;;
  if decide (storage_type self ≠ definitions.STORAGE_TYPE_TASK)
  then raise (IOError "Task completion not supported by storage type.")
  else _WriteNewAttributeContainer task_start.

End BaseStore.

(** ** [StorageReader] *)

(** The abstract method of [StorageReader] that its own methods call. *)
Class ReaderBackend (R : Type) : Type := {
  Close : M R unit
}.

Section StorageReader.
Context {R : Type} {reader_backend : ReaderBackend R}.

(** [__enter__] returns the reader itself; the state is all there is to
    return. *)
Definition __enter__ : M R unit := ret tt.

(** [__exit__] has no [return]: it returns [None], which is false. The
    argument is the exception of the body, if any; it is not used. *)
Definition __exit__ (exception_value : option exception) : M R bool :=
  Close ;;
  ret false.

(** [with reader: body], by the definition of the statement: [__enter__],
    the body, then [__exit__] with the exception of the body or with
    [None]; the exception of the body is raised again unless [__exit__]
    returned true, and an exception of [__exit__] replaces it. *)
Definition with_statement (body : M R unit) : M R unit :=
  __enter__ ;;
  fun s => match body s with
           | (Return _, s1) =>
               match __exit__ None s1 with
               | (Return _, s2) => (Return tt, s2)
               | (Raise e, s2) => (Raise e, s2)
               end
           | (Raise e, s1) =>
               match __exit__ (Some e) s1 with
               | (Return suppress, s2) =>
                   if suppress : bool then (Return tt, s2) else (Raise e, s2)
               | (Raise e', s2) => (Raise e', s2)
               end
           end.

End StorageReader.

(** ** A store in memory *)

Module memory.

(** Modelled from the spec: a class that implements the abstract methods of
    [BaseStore]; none is in the source.  A store is an ordered collection of
    containers partitioned by container type, it is open or closed and
    writable or read-only, and it numbers the containers written to it. *)
Record MemoryStore : Type := mkMemoryStore {
  is_open : bool;
  read_only : bool;
  containers : gmap string (list AttributeContainer);
  next_identifier : nat
}.

Definition containers_of (container_type : string) (b : MemoryStore)
  : list AttributeContainer :=
  default [] (containers b !! container_type).

(** Modelled from the spec: [_RaiseIfNotWritable]; a state error when the
    store is closed or read-only. *)
Definition RaiseIfNotWritable : M (BaseStore MemoryStore) unit :=
  fun s =>
    if negb (is_open (backend s))
    then (Raise (IOError "Unable to write to closed store."), s)
    else if read_only (backend s)
    then (Raise (IOError "Unable to write to read-only store."), s)
    else (Return tt, s).

(** Modelled from the spec: [_WriteNewAttributeContainer]; it assigns the
    identifier and persists the container after the ones of its type.
    [_last_session] counts the session-start records. *)
Definition WriteNewAttributeContainer (container : AttributeContainer)
  : M (BaseStore MemoryStore) unit :=
  fun s =>
    let b := backend s in
    let container_type := CONTAINER_TYPE container in
    let written :=
      {| CONTAINER_TYPE := container_type;
         attributes := attributes container;
         _identifier := Some (next_identifier b) |} in
    let b' :=
      {| is_open := is_open b;
         read_only := read_only b;
         containers :=
           <[container_type := (containers_of container_type b ++ [written])%list]>
             (containers b);
         next_identifier := S (next_identifier b) |} in
    let s' := set_backend b' s in
    (Return tt,
     if decide (container_type = _CONTAINER_TYPE_SESSION_START)
     then set_last_session (S (_last_session s)) s'
     else s').

(** Modelled from the spec: [GetAttributeContainers]; the containers of a
    type in write order, a state error when the store is closed. *)
Definition GetContainers (container_type : string)
  : M (BaseStore MemoryStore) (list AttributeContainer) :=
  fun s =>
    if negb (is_open (backend s))
    then (Raise (IOError "Unable to read from closed store."), s)
    else (Return (containers_of container_type (backend s)), s).

(** Modelled from the spec: [HasAttributeContainers]. *)
Definition HasContainers (container_type : string)
  : M (BaseStore MemoryStore) bool :=
  fun s =>
    (Return (negb (bool_decide (containers_of container_type (backend s) = []))),
     s).

Global Instance backend_memory : StoreBackend MemoryStore := {
  _RaiseIfNotWritable := RaiseIfNotWritable;
  _WriteNewAttributeContainer := WriteNewAttributeContainer;
  GetAttributeContainers := GetContainers;
  HasAttributeContainers := HasContainers
}.

(** A new, empty store that is open for writing. *)
Definition empty_store : MemoryStore :=
  {| is_open := true; read_only := false; containers := ∅;
     next_identifier := 1 |}.

Definition new (storage_type : string) : BaseStore MemoryStore :=
  __init__ empty_store storage_type.

End memory.

(** ** A serializer for the examples *)

Module tag_serializer.

(** A serializer that can represent the container type only: it writes the
    type as text, a str as a JSON serializer writes, refuses a container
    with an attribute that is set, and reads an ASCII text back as a
    container of that type. *)
Definition all_unset (l : list (string * option value)) : bool :=
  forallb (fun kv => match snd kv with None => true | Some _ => false end) l.

Definition ascii_text (text : list N) : option string :=
  if forallb (fun n => (n <? 128)%N) text
  then Some (String.string_of_list_ascii (map Ascii.ascii_of_N text))
  else None.

Definition write (c : AttributeContainer) : result serialized :=
  if all_unset (attributes c)
  then Return (PyStr (map Ascii.N_of_ascii
                        (String.list_ascii_of_string (CONTAINER_TYPE c))))
  else Raise (TypeError "unsupported attribute value").

Definition read (text : list N) : result (option AttributeContainer) :=
  match ascii_text text with
  | Some container_type =>
      Return (Some {| CONTAINER_TYPE := container_type; attributes := [];
                      _identifier := None |})
  | None => Raise (ValueError "unsupported character")
  end.

Global Instance serializer : Serializer := {
  WriteSerialized := write;
  ReadSerialized := read
}.

End tag_serializer.

(** ** Properties stated below *)

(** The container as [memory.WriteNewAttributeContainer] persists it in the
    store [b]. *)
Definition written_to (b : memory.MemoryStore) (container : AttributeContainer)
  : AttributeContainer :=
  {| CONTAINER_TYPE := CONTAINER_TYPE container;
     attributes := attributes container;
     _identifier := Some (memory.next_identifier b) |}.

(** A session in which every record merged carries the identifier of the
    session. *)
Definition session_consistent (session : sessions.Session) : Prop :=
  (∀ a, sessions.start session = Some a →
        lookup_attribute "identifier" a = sessions.identifier session) ∧
  (∀ a, sessions.configuration session = Some a →
        lookup_attribute "identifier" a = sessions.identifier session) ∧
  (∀ a, sessions.completion session = Some a →
        lookup_attribute "identifier" a = sessions.identifier session).

(** The records of one iteration do not all carry the identifier of the
    session start. *)
Definition identifier_mismatch (session_start : AttributeContainer)
    (session_configuration : option AttributeContainer)
    (session_completion : local AttributeContainer) : Prop :=
  (∃ c, session_configuration = Some c ∧
        sessions.session_identifier c ≠ sessions.session_identifier session_start)
  ∨ (∃ c, session_completion = Bound c ∧
          sessions.session_identifier c ≠ sessions.session_identifier session_start).

(** The message of the I/O error for records with a mismatch: the
    configuration is merged first, so its mismatch is the one reported. *)
Definition mismatch_message (session_start : AttributeContainer)
    (session_configuration : option AttributeContainer)
    (session_index : nat) : string :=
  match session_configuration with
  | Some c =>
      if decide (sessions.session_identifier session_start
                 = sessions.session_identifier c)
      then "Session identifier mismatch for session completion: "
           ++ format_d session_index
      else "Session identifier mismatch for session configuration: "
           ++ format_d session_index
  | None => "Session identifier mismatch for session completion: "
            ++ format_d session_index
  end.

(** The locals of [GetSessions] at the start of iteration [k] (from 0) of a
    loop that starts at [session_index]; [None] when an earlier iteration
    raised. *)
Fixpoint GetSessions_frame_at (k session_index : nat) (f : GetSessions_frame)
  : option GetSessions_frame :=
  match k with
  | 0 => Some f
  | S k' =>
    match GetSessions_body session_index f with
    | Return (_, f') => GetSessions_frame_at k' (S session_index) f'
    | Raise _ => None
    end
  end.

(** Containers and stores of the examples. *)
Module examples.

Definition record (container_type session : string)
    (more : list (string * option value)) : AttributeContainer :=
  {| CONTAINER_TYPE := container_type;
     attributes := ("identifier", Some (VStr session)) :: more;
     _identifier := None |}.

Definition session_start (session : string) : AttributeContainer :=
  record _CONTAINER_TYPE_SESSION_START session
    [("product_name", Some (VStr "plaso"))].
Definition session_completion (session : string) : AttributeContainer :=
  record _CONTAINER_TYPE_SESSION_COMPLETION session
    [("aborted", Some (VBool false))].
Definition session_configuration (session : string) : AttributeContainer :=
  record _CONTAINER_TYPE_SESSION_CONFIGURATION session
    [("preferred_year", Some (VInt 2021))].
Definition task_start : AttributeContainer :=
  record _CONTAINER_TYPE_TASK_START "a" [].
Definition task_completion : AttributeContainer :=
  record _CONTAINER_TYPE_TASK_COMPLETION "a" [("aborted", Some (VBool false))].

Definition after {A} (m : M (BaseStore memory.MemoryStore) A)
    (s : BaseStore memory.MemoryStore) : BaseStore memory.MemoryStore :=
  snd (m s).

Definition task_store : BaseStore memory.MemoryStore :=
  memory.new definitions.STORAGE_TYPE_TASK.
Definition session_store : BaseStore memory.MemoryStore :=
  memory.new definitions.STORAGE_TYPE_SESSION.

Definition closed_store : BaseStore memory.MemoryStore :=
  set_backend
    {| memory.is_open := false; memory.read_only := false;
       memory.containers := ∅; memory.next_identifier := 1 |}
    session_store.

(** Three sessions started; the run of the second did not complete. *)
Definition store_without_second_completion : BaseStore memory.MemoryStore :=
  after (WriteSessionCompletion (session_completion "c"))
    (after (WriteSessionStart (session_start "c"))
       (after (WriteSessionStart (session_start "b"))
          (after (WriteSessionCompletion (session_completion "a"))
             (after (WriteSessionStart (session_start "a")) session_store)))).

(** One session started, and nothing else. *)
Definition store_with_start_only : BaseStore memory.MemoryStore :=
  after (WriteSessionStart (session_start "a")) session_store.

(** Two sessions started, the first completed. *)
Definition store_without_last_completion : BaseStore memory.MemoryStore :=
  after (WriteSessionStart (session_start "b"))
    (after (WriteSessionCompletion (session_completion "a"))
       (after (WriteSessionStart (session_start "a")) session_store)).

(** One session whose configuration record carries another identifier. *)
Definition store_with_other_configuration : BaseStore memory.MemoryStore :=
  after (WriteSessionCompletion (session_completion "a"))
    (after (WriteSessionConfiguration (session_configuration "b"))
       (after (WriteSessionStart (session_start "a")) session_store)).

(** The session of [session_start s] and [session_completion s]. *)
Definition completed_session (session : string) : sessions.Session :=
  {| sessions.identifier := Some (VStr session);
     sessions.start := Some (attributes (session_start session));
     sessions.configuration := None;
     sessions.completion := Some (attributes (session_completion session)) |}.

(** A reader that counts the calls of [Close]. *)
Record CountingReader : Type := mkReader {
  closed : bool;
  close_calls : nat
}.

Global Instance counting_reader : ReaderBackend CountingReader := {
  Close := fun r => (Return tt, {| closed := true; close_calls := S (close_calls r) |})
}.

Definition unset_event : AttributeContainer :=
  {| CONTAINER_TYPE := _CONTAINER_TYPE_EVENT;
     attributes := [("timestamp", None)];
     _identifier := None |}.

End examples.

(** ** The system configuration and the knowledge base *)

Section knowledge_base.
Context {B : Type} {store_backend : StoreBackend B}.

(** The knowledge base is seen through the artifacts passed to its
    [ReadSystemConfigurationArtifact], oldest first; the method gives the
    knowledge base after its calls. *)
Definition ReadSystemConfiguration (knowledge_base : list AttributeContainer)
  : M (BaseStore B) (list AttributeContainer) :=
  has <- HasAttributeContainers _CONTAINER_TYPE_SYSTEM_CONFIGURATION ;;
  if has : bool
  then generator <- GetAttributeContainers _CONTAINER_TYPE_SYSTEM_CONFIGURATION ;;
       ret (foldl (λ knowledge_base system_configuration,
                     (knowledge_base ++ [system_configuration])%list)
              knowledge_base generator)
  else ret knowledge_base.

End knowledge_base.

(** ** Further notions for the statements *)

(** The store after its serializers profiler, if it has one, saw [calls]. *)
Definition profiled {B} (calls : list profiler_call) (s : BaseStore B)
  : BaseStore B :=
  match _serializers_profiler s with
  | Some seen => set_serializers_profiler (Some (seen ++ calls)%list) s
  | None => s
  end.

(** The session of a start record, a configuration record if there is one,
    and a completion record that carry one identifier. *)
Definition merged_session (session_start : AttributeContainer)
    (session_configuration : option AttributeContainer)
    (session_completion : AttributeContainer) : sessions.Session :=
  {| sessions.identifier := sessions.session_identifier session_start;
     sessions.start := Some (attributes session_start);
     sessions.configuration := attributes <$> session_configuration;
     sessions.completion := Some (attributes session_completion) |}.

(** The first [count] records of the generators line up: each session
    start has a completion, and a configuration when there is a
    configuration generator, with its identifier. *)
Definition aligned (count : nat) (f : GetSessions_frame) : Prop :=
  ∀ i, i < count →
    ∃ st comp,
      session_start_generator f !! i = Some st ∧
      session_completion_generator f !! i = Some comp ∧
      sessions.session_identifier comp = sessions.session_identifier st ∧
      match session_configuration_generator f with
      | Some generator =>
          ∃ c, generator !! i = Some c ∧
               sessions.session_identifier c = sessions.session_identifier st
      | None => True
      end.

(** Further stores of the examples. *)
Module scenarios.

Definition system_configuration (hostname : string) : AttributeContainer :=
  {| CONTAINER_TYPE := _CONTAINER_TYPE_SYSTEM_CONFIGURATION;
     attributes := [("hostname", Some (VStr hostname))];
     _identifier := None |}.

(** One session, started and completed. *)
Definition store_with_one_session : BaseStore memory.MemoryStore :=
  examples.after (WriteSessionCompletion (examples.session_completion "a"))
    examples.store_with_start_only.

(** Two sessions, each with its start, configuration and completion. *)
Definition store_with_two_sessions : BaseStore memory.MemoryStore :=
  examples.after (WriteSessionCompletion (examples.session_completion "b"))
    (examples.after (WriteSessionConfiguration (examples.session_configuration "b"))
       (examples.after (WriteSessionStart (examples.session_start "b"))
          (examples.after
             (WriteSessionCompletion (examples.session_completion "a"))
             (examples.after
                (WriteSessionConfiguration (examples.session_configuration "a"))
                examples.store_with_start_only)))).

(** A store that counts one session more than it has session starts. *)
Definition store_with_lost_start : BaseStore memory.MemoryStore :=
  set_last_session 2 store_with_one_session.

(** A store of an older format: two system-configuration artifacts. *)
Definition store_with_system_configuration : BaseStore memory.MemoryStore :=
  examples.after (AddAttributeContainer (system_configuration "beta"))
    (examples.after (AddAttributeContainer (system_configuration "alpha"))
       examples.session_store).

(** Two sessions; only the first wrote its configuration. *)
Definition store_with_one_configuration : BaseStore memory.MemoryStore :=
  examples.after (WriteSessionCompletion (examples.session_completion "b"))
    (examples.after (WriteSessionStart (examples.session_start "b"))
       (examples.after
          (WriteSessionCompletion (examples.session_completion "a"))
          (examples.after
             (WriteSessionConfiguration (examples.session_configuration "a"))
             examples.store_with_start_only))).

(** The generators [GetSessions] pulls from on an open store in memory. *)
Definition frame_of (s : BaseStore memory.MemoryStore) : GetSessions_frame :=
  {| session_start_generator :=
       memory.containers_of _CONTAINER_TYPE_SESSION_START (backend s);
     session_completion_generator :=
       memory.containers_of _CONTAINER_TYPE_SESSION_COMPLETION (backend s);
     session_configuration_generator :=
       if bool_decide
            (memory.containers_of _CONTAINER_TYPE_SESSION_CONFIGURATION
               (backend s) = [])
       then None
       else Some (memory.containers_of _CONTAINER_TYPE_SESSION_CONFIGURATION
                    (backend s));
     session_completion := Unbound |}.

End scenarios.

(** * Theorems *)

(** ** The monad *)

Lemma bind_return {S A C} (m : M S A) (k : A → M S C) s a s' :
  m s = (Return a, s') → bind m k s = k a s'.
Proof. intros Hm. unfold bind. by rewrite Hm. Qed.

Lemma bind_raise {S A C} (m : M S A) (k : A → M S C) s e s' :
  m s = (Raise e, s') → bind m k s = (Raise e, s').
Proof. intros Hm. unfold bind. by rewrite Hm. Qed.

(** ** The write path, for every backend *)

Section write_path.
Context {B : Type} {store_backend : StoreBackend B}.

Lemma AddAttributeContainer_writable container (s s1 : BaseStore B) :
  _RaiseIfNotWritable s = (Return tt, s1) →
  AddAttributeContainer container s = _WriteNewAttributeContainer container s1.
Proof. intros Hw. unfold AddAttributeContainer. by rewrite (bind_return _ _ _ _ _ Hw). Qed.

Lemma AddAttributeContainer_check_raises
    (container : AttributeContainer) (s s' : BaseStore B) (e : exception) :
  _RaiseIfNotWritable s = (Raise e, s') →
  AddAttributeContainer container s = (Raise e, s').
Proof. intros Hw. unfold AddAttributeContainer. by apply bind_raise. Qed.

End write_path.

(** ** The store in memory *)

Lemma memory_writable (s : BaseStore memory.MemoryStore) :
  memory.is_open (backend s) = true →
  memory.read_only (backend s) = false →
  _RaiseIfNotWritable s = (Return tt, s).
Proof.
  intros Hopen Hrw. cbn. unfold memory.RaiseIfNotWritable.
  by rewrite Hopen, Hrw.
Qed.

Lemma memory_not_writable (s : BaseStore memory.MemoryStore) :
  memory.is_open (backend s) = false ∨ memory.read_only (backend s) = true →
  ∃ message, _RaiseIfNotWritable s = (Raise (IOError message), s).
Proof.
  intros H. cbn. unfold memory.RaiseIfNotWritable.
  destruct (memory.is_open (backend s)) eqn:Hopen; cbn.
  - destruct H as [H|H]; [done|]. rewrite H. eauto.
  - eauto.
Qed.

Lemma memory_write container (s : BaseStore memory.MemoryStore) :
  ∃ s', _WriteNewAttributeContainer container s = (Return tt, s') ∧
        storage_type s' = storage_type s ∧
        memory.is_open (backend s') = memory.is_open (backend s) ∧
        memory.read_only (backend s') = memory.read_only (backend s) ∧
        memory.containers_of (CONTAINER_TYPE container) (backend s')
        = (memory.containers_of (CONTAINER_TYPE container) (backend s)
           ++ [written_to (backend s) container])%list ∧
        ∀ container_type, container_type ≠ CONTAINER_TYPE container →
          memory.containers_of container_type (backend s')
          = memory.containers_of container_type (backend s).
Proof.
  eexists. split; [reflexivity|].
  case_decide; cbn; unfold memory.containers_of; cbn;
    rewrite lookup_insert_eq;
    (repeat split; try done);
    intros ? ?; by rewrite lookup_insert_ne.
Qed.

(** C1, as amended. [AddAttributeContainer] checks that the store is
    writable and nothing else: on a store that is open and not read-only it
    persists the container after the ones of its type, whatever the type of
    the container and the storage type of the store. *)
Theorem AddAttributeContainer_persists_any_type
    (container : AttributeContainer) (s : BaseStore memory.MemoryStore) :
  memory.is_open (backend s) = true →
  memory.read_only (backend s) = false →
  ∃ s', AddAttributeContainer container s = (Return tt, s') ∧
        storage_type s' = storage_type s ∧
        memory.containers_of (CONTAINER_TYPE container) (backend s')
        = (memory.containers_of (CONTAINER_TYPE container) (backend s)
           ++ [written_to (backend s) container])%list.
Proof.
  intros Hopen Hrw.
  rewrite (AddAttributeContainer_writable _ _ _ (memory_writable s Hopen Hrw)).
  destruct (memory_write container s) as (s' & Hs' & Htype & _ & _ & Hc & _).
  eauto.
Qed.

Lemma AddAttributeContainer_persists_any_type_witness :
  memory.is_open (backend examples.task_store) = true ∧
  memory.read_only (backend examples.task_store) = false ∧
  ∃ s', AddAttributeContainer (examples.session_start "a") examples.task_store
        = (Return tt, s') ∧
        storage_type s' = storage_type examples.task_store ∧
        memory.containers_of _CONTAINER_TYPE_SESSION_START (backend s')
        = (memory.containers_of _CONTAINER_TYPE_SESSION_START
             (backend examples.task_store)
           ++ [written_to (backend examples.task_store)
                 (examples.session_start "a")])%list.
Proof.
  split; [reflexivity|]. split; [reflexivity|].
  apply (AddAttributeContainer_persists_any_type
           (examples.session_start "a") examples.task_store); reflexivity.
Defined.

(** C1 as stated fails: a session-start container, whose type is in
    [_SESSION_STORE_ONLY_CONTAINER_TYPES], is added to a task store, and a
    task-start container, whose type is in
    [_TASK_STORE_ONLY_CONTAINER_TYPES], to a session store; neither call
    raises and both containers are persisted. *)
Lemma AddAttributeContainer_type_check_counterexample :
  CONTAINER_TYPE (examples.session_start "a")
    ∈ _SESSION_STORE_ONLY_CONTAINER_TYPES ∧
  storage_type examples.task_store = definitions.STORAGE_TYPE_TASK ∧
  fst (AddAttributeContainer (examples.session_start "a") examples.task_store)
  = Return tt ∧
  memory.containers_of _CONTAINER_TYPE_SESSION_START
    (backend (snd (AddAttributeContainer (examples.session_start "a")
                     examples.task_store)))
  = [written_to (backend examples.task_store) (examples.session_start "a")] ∧
  CONTAINER_TYPE examples.task_start ∈ _TASK_STORE_ONLY_CONTAINER_TYPES ∧
  storage_type examples.session_store = definitions.STORAGE_TYPE_SESSION ∧
  fst (AddAttributeContainer examples.task_start examples.session_store)
  = Return tt ∧
  memory.containers_of _CONTAINER_TYPE_TASK_START
    (backend (snd (AddAttributeContainer examples.task_start
                     examples.session_store)))
  = [written_to (backend examples.session_store) examples.task_start].
Proof.
  repeat split; try (vm_compute; reflexivity).
  - apply list_elem_of_In. cbn. tauto.
  - apply list_elem_of_In. cbn. tauto.
Qed.

(** C8. For every backend, when the writable-state check raises,
    [AddAttributeContainer] raises that error for every container, whatever
    its type, and leaves the store as the check left it:
    [_WriteNewAttributeContainer] is not reached.  On the store in memory
    the check raises when the store is closed or read-only and changes
    nothing, so the store is as before the call. *)
Theorem AddAttributeContainer_not_writable :
  (∀ (B : Type) (store_backend : StoreBackend B)
     (container : AttributeContainer) (s s' : BaseStore B) (e : exception),
     _RaiseIfNotWritable s = (Raise e, s') →
     AddAttributeContainer container s = (Raise e, s')) ∧
  (∀ (container : AttributeContainer) (s : BaseStore memory.MemoryStore),
     memory.is_open (backend s) = false ∨ memory.read_only (backend s) = true →
     ∃ message,
       AddAttributeContainer container s = (Raise (IOError message), s)).
Proof.
  split.
  - intros B store_backend container s s' e.
    apply AddAttributeContainer_check_raises.
  - intros container s H. destruct (memory_not_writable s H) as [message Hm].
    exists message. by apply AddAttributeContainer_check_raises.
Qed.

Lemma AddAttributeContainer_not_writable_witness :
  (_RaiseIfNotWritable examples.closed_store
   = (Raise (IOError "Unable to write to closed store."), examples.closed_store) ∧
   AddAttributeContainer examples.task_completion examples.closed_store
   = (Raise (IOError "Unable to write to closed store."), examples.closed_store)) ∧
  ((memory.is_open (backend examples.closed_store) = false
    ∨ memory.read_only (backend examples.closed_store) = true) ∧
   ∃ message,
     AddAttributeContainer (examples.session_start "a") examples.closed_store
     = (Raise (IOError message), examples.closed_store)).
Proof.
  split.
  - split; [reflexivity|].
    apply (proj1 AddAttributeContainer_not_writable _ _
             examples.task_completion examples.closed_store
             examples.closed_store).
    reflexivity.
  - split; [left; reflexivity|].
    apply (proj2 AddAttributeContainer_not_writable
             (examples.session_start "a") examples.closed_store).
    left. reflexivity.
Defined.

(** ** The typed writers *)

Lemma HasAttributeContainers_memory container_type
    (s : BaseStore memory.MemoryStore) :
  HasAttributeContainers container_type s
  = (Return (negb (bool_decide
                     (memory.containers_of container_type (backend s) = []))),
     s).
Proof. reflexivity. Qed.

(** C2, as amended. [WriteSessionConfiguration] checks that the store is
    writable and never looks at the storage type: on a store that is open
    and not read-only, of any storage type, it persists the
    session-configuration container when the store holds no
    system-configuration container, and returns without writing when it
    holds one. It raises in neither case. *)
Theorem WriteSessionConfiguration_any_storage_type
    (session_configuration : AttributeContainer)
    (s : BaseStore memory.MemoryStore) :
  memory.is_open (backend s) = true →
  memory.read_only (backend s) = false →
  if bool_decide
       (memory.containers_of _CONTAINER_TYPE_SYSTEM_CONFIGURATION (backend s) = [])
  then
    ∃ s', WriteSessionConfiguration session_configuration s = (Return tt, s') ∧
          storage_type s' = storage_type s ∧
          memory.containers_of (CONTAINER_TYPE session_configuration) (backend s')
          = (memory.containers_of (CONTAINER_TYPE session_configuration)
               (backend s)
             ++ [written_to (backend s) session_configuration])%list
  else WriteSessionConfiguration session_configuration s = (Return tt, s).
Proof.
  intros Hopen Hrw. unfold WriteSessionConfiguration.
  rewrite (bind_return _ _ _ _ _ (memory_writable s Hopen Hrw)).
  rewrite (bind_return _ _ _ _ _ (HasAttributeContainers_memory _ s)).
  destruct (bool_decide _); cbn [negb].
  - destruct (memory_write session_configuration s)
      as (s' & Hs' & Htype & _ & _ & Hc & _). eauto.
  - reflexivity.
Qed.

Lemma WriteSessionConfiguration_any_storage_type_witness :
  memory.is_open (backend examples.task_store) = true ∧
  memory.read_only (backend examples.task_store) = false ∧
  ∃ s', WriteSessionConfiguration (examples.session_configuration "a")
          examples.task_store = (Return tt, s') ∧
        storage_type s' = definitions.STORAGE_TYPE_TASK ∧
        memory.containers_of _CONTAINER_TYPE_SESSION_CONFIGURATION (backend s')
        = [written_to (backend examples.task_store)
             (examples.session_configuration "a")].
Proof.
  split; [reflexivity|]. split; [reflexivity|].
  exact (WriteSessionConfiguration_any_storage_type
           (examples.session_configuration "a") examples.task_store
           eq_refl eq_refl).
Defined.

(** C2 as stated fails: on a task store [WriteSessionConfiguration] returns
    and the session-configuration container is in the store, where
    [WriteSessionStart] and [WriteSessionCompletion] raise. *)
Lemma WriteSessionConfiguration_task_store_counterexample :
  storage_type examples.task_store ≠ definitions.STORAGE_TYPE_SESSION ∧
  fst (WriteSessionConfiguration (examples.session_configuration "a")
         examples.task_store) = Return tt ∧
  memory.containers_of _CONTAINER_TYPE_SESSION_CONFIGURATION
    (backend (snd (WriteSessionConfiguration
                     (examples.session_configuration "a") examples.task_store)))
  = [written_to (backend examples.task_store)
       (examples.session_configuration "a")] ∧
  WriteSessionStart (examples.session_start "a") examples.task_store
  = (Raise (IOError "Session start not supported by storage type."),
     examples.task_store) ∧
  WriteSessionCompletion (examples.session_completion "a") examples.task_store
  = (Raise (IOError "Session completion not supported by storage type."),
     examples.task_store).
Proof. repeat split; try (vm_compute; reflexivity). vm_compute. discriminate. Qed.

Section typed_writers.
Context {B : Type} {store_backend : StoreBackend B}.

Lemma get_return (s : BaseStore B) : get s = (Return s, s).
Proof. reflexivity. Qed.

Lemma WriteTaskStart_task task_start (s s1 : BaseStore B) :
  _RaiseIfNotWritable s = (Return tt, s1) →
  storage_type s1 = definitions.STORAGE_TYPE_TASK →
  WriteTaskStart task_start s = _WriteNewAttributeContainer task_start s1.
Proof.
  intros Hw Ht. unfold WriteTaskStart.
  rewrite (bind_return _ _ _ _ _ Hw), (bind_return _ _ _ _ _ (get_return s1)).
  by rewrite decide_False by (by intros []).
Qed.

Lemma WriteTaskCompletion_task task_completion (s s1 : BaseStore B) :
  _RaiseIfNotWritable s = (Return tt, s1) →
  storage_type s1 = definitions.STORAGE_TYPE_TASK →
  WriteTaskCompletion task_completion s
  = _WriteNewAttributeContainer task_completion s1.
Proof.
  intros Hw Ht. unfold WriteTaskCompletion.
  rewrite (bind_return _ _ _ _ _ Hw), (bind_return _ _ _ _ _ (get_return s1)).
  by rewrite decide_False by (by intros []).
Qed.

Lemma WriteSessionStart_not_session session_start (s s1 : BaseStore B) :
  _RaiseIfNotWritable s = (Return tt, s1) →
  storage_type s1 ≠ definitions.STORAGE_TYPE_SESSION →
  WriteSessionStart session_start s
  = (Raise (IOError "Session start not supported by storage type."), s1).
Proof.
  intros Hw Ht. unfold WriteSessionStart.
  rewrite (bind_return _ _ _ _ _ Hw), (bind_return _ _ _ _ _ (get_return s1)).
  by rewrite decide_True.
Qed.

Lemma WriteSessionCompletion_not_session session_completion (s s1 : BaseStore B) :
  _RaiseIfNotWritable s = (Return tt, s1) →
  storage_type s1 ≠ definitions.STORAGE_TYPE_SESSION →
  WriteSessionCompletion session_completion s
  = (Raise (IOError "Session completion not supported by storage type."), s1).
Proof.
  intros Hw Ht. unfold WriteSessionCompletion.
  rewrite (bind_return _ _ _ _ _ Hw), (bind_return _ _ _ _ _ (get_return s1)).
  by rewrite decide_True.
Qed.

End typed_writers.

(** C7. On a task store that is open and not read-only, [WriteTaskStart]
    and then [WriteTaskCompletion] return, each with its container persisted
    after the ones of its type; [WriteSessionStart] on the store they leave
    raises an I/O error and the store stays as it was. *)
Theorem task_store_accepts_task_records_only
    (task_start task_completion session_start : AttributeContainer)
    (s : BaseStore memory.MemoryStore) :
  storage_type s = definitions.STORAGE_TYPE_TASK →
  memory.is_open (backend s) = true →
  memory.read_only (backend s) = false →
  ∃ s1 s2,
    WriteTaskStart task_start s = (Return tt, s1) ∧
    memory.containers_of (CONTAINER_TYPE task_start) (backend s1)
    = (memory.containers_of (CONTAINER_TYPE task_start) (backend s)
       ++ [written_to (backend s) task_start])%list ∧
    WriteTaskCompletion task_completion s1 = (Return tt, s2) ∧
    memory.containers_of (CONTAINER_TYPE task_completion) (backend s2)
    = (memory.containers_of (CONTAINER_TYPE task_completion) (backend s1)
       ++ [written_to (backend s1) task_completion])%list ∧
    WriteSessionStart session_start s2
    = (Raise (IOError "Session start not supported by storage type."), s2).
Proof.
  intros Htype Hopen Hrw.
  destruct (memory_write task_start s)
    as (s1 & Hs1 & Htype1 & Hopen1 & Hrw1 & Hc1 & _).
  destruct (memory_write task_completion s1)
    as (s2 & Hs2 & Htype2 & Hopen2 & Hrw2 & Hc2 & _).
  rewrite Hopen in Hopen1. rewrite Hrw in Hrw1. rewrite Htype in Htype1.
  rewrite Hopen1 in Hopen2. rewrite Hrw1 in Hrw2. rewrite Htype1 in Htype2.
  exists s1, s2. repeat split.
  - by rewrite (WriteTaskStart_task _ _ _ (memory_writable s Hopen Hrw) Htype).
  - exact Hc1.
  - by rewrite (WriteTaskCompletion_task _ _ _
                  (memory_writable s1 Hopen1 Hrw1) Htype1).
  - exact Hc2.
  - apply (WriteSessionStart_not_session _ _ _ (memory_writable s2 Hopen2 Hrw2)).
    rewrite Htype2. discriminate.
Qed.

Lemma task_store_accepts_task_records_only_witness :
  storage_type examples.task_store = definitions.STORAGE_TYPE_TASK ∧
  memory.is_open (backend examples.task_store) = true ∧
  memory.read_only (backend examples.task_store) = false ∧
  ∃ s1 s2,
    WriteTaskStart examples.task_start examples.task_store = (Return tt, s1) ∧
    memory.containers_of _CONTAINER_TYPE_TASK_START (backend s1)
    = (memory.containers_of _CONTAINER_TYPE_TASK_START
         (backend examples.task_store)
       ++ [written_to (backend examples.task_store) examples.task_start])%list ∧
    WriteTaskCompletion examples.task_completion s1 = (Return tt, s2) ∧
    memory.containers_of _CONTAINER_TYPE_TASK_COMPLETION (backend s2)
    = (memory.containers_of _CONTAINER_TYPE_TASK_COMPLETION (backend s1)
       ++ [written_to (backend s1) examples.task_completion])%list ∧
    WriteSessionStart (examples.session_start "a") s2
    = (Raise (IOError "Session start not supported by storage type."), s2).
Proof.
  split; [reflexivity|]. split; [reflexivity|]. split; [reflexivity|].
  exact (task_store_accepts_task_records_only
           examples.task_start examples.task_completion
           (examples.session_start "a") examples.task_store
           eq_refl eq_refl eq_refl).
Defined.

(** ** [StorageReader] as a context manager *)

Section reader.
Context {R : Type} {reader_backend : ReaderBackend R}.

(** C9. [with reader: body] is [try: body finally: reader.Close()]:
    [Close] runs once after the body on the state the body left, when the
    body returned and when it raised; the exception of the body is raised
    again after it. *)
Theorem with_statement_closes (body : M R unit) (s : R) :
  with_statement body s = try_finally body Close s.
Proof.
  unfold with_statement, try_finally, __enter__, __exit__, bind, ret.
  destruct (body s) as [[[]|e] s1]; destruct (Close s1) as [[[]|e'] s2];
    reflexivity.
Qed.

End reader.

(** A body that raises: the reader is closed, by one call, and the
    exception is the one of the body. *)
Example with_statement_closes_on_error :
  with_statement (raise (ValueError "body"))
    {| examples.closed := false; examples.close_calls := 0 |}
  = (Raise (ValueError "body"),
     {| examples.closed := true; examples.close_calls := 1 |}).
Proof. reflexivity. Qed.

(** ** Serialization *)

Section serialization.
Context {B : Type} {serializer : Serializer}.

Lemma serializers_profiler_call_return call (s : BaseStore B) :
  ∃ s', serializers_profiler_call call s = (Return tt, s') ∧
        _serializers_profiler s'
        = (λ calls, calls ++ [call])%list <$> _serializers_profiler s.
Proof.
  unfold serializers_profiler_call.
  destruct (_serializers_profiler s) as [calls|] eqn:Hp; eexists; split;
    try reflexivity; cbn; by rewrite ?Hp.
Qed.

(** C10. Serialized data that is [None] or empty deserializes to [None]:
    nothing is raised and the store, the serializers profiler with it, is
    as before, whatever the container type.  Data that is not empty and is
    not UTF-8, or that [ReadSerialized] refuses with a [ValueError], raises
    an I/O error, between a [StartTiming] and a [StopTiming] of the
    profiler. *)
Theorem DeserializeAttributeContainer_empty
    (container_type : string) (s : BaseStore B) :
  _DeserializeAttributeContainer container_type PyNone s = (Return None, s) ∧
  _DeserializeAttributeContainer container_type (PyBytes []) s
  = (Return None, s) ∧
  (∀ data, data ≠ [] → utf8_code_points data = None →
    _DeserializeAttributeContainer container_type (PyBytes data) s
    = (Raise (IOError ("Unable to decode serialized data: "
                       ++ "'utf-8' codec can't decode bytes")),
       snd (serializers_profiler_call (StopTiming container_type)
              (snd (serializers_profiler_call (StartTiming container_type) s))))) ∧
  ∀ data text message, data ≠ [] → decode_utf8 data = Return text →
    ReadSerialized text = Raise (ValueError message) →
    _DeserializeAttributeContainer container_type (PyBytes data) s
    = (Raise (IOError ("Unable to read serialized data: " ++ message)),
       snd (serializers_profiler_call (StopTiming container_type)
              (snd (serializers_profiler_call (StartTiming container_type) s)))).
Proof.
  split; [reflexivity|]. split; [reflexivity|].
  destruct (serializers_profiler_call_return (StartTiming container_type) s)
    as (s1 & Hs1 & _).
  destruct (serializers_profiler_call_return (StopTiming container_type) s1)
    as (s2 & Hs2 & _).
  split.
  - intros data Hne Hbad.
    destruct data as [|b data]; [done|].
    unfold _DeserializeAttributeContainer, decode, decode_utf8.
    cbn [truth negb]. rewrite Hbad.
    rewrite (bind_return _ _ _ _ _ Hs1), Hs1. cbn [snd].
    unfold try_finally, raise. by rewrite Hs2.
  - intros data text message Hne Hdecode Hread.
    destruct data as [|b data]; [done|].
    unfold _DeserializeAttributeContainer, decode.
    cbn [truth negb]. rewrite Hdecode, Hread.
    rewrite (bind_return _ _ _ _ _ Hs1), Hs1. cbn [snd].
    unfold try_finally, raise. by rewrite Hs2.
Qed.

(** C4, where the code fails it. With a serializer that writes text, a str,
    there is no round trip: [_SerializeAttributeContainer] returns the str
    of [WriteSerialized] as it is, without encoding it, and
    [_DeserializeAttributeContainer] calls [decode] on what it is given.
    The call raises [AttributeError], which none of its handlers turns into
    an I/O error, and no container comes back. *)
Theorem serialized_text_does_not_round_trip
    (c : AttributeContainer) (s : BaseStore B) (text : list N) :
  WriteSerialized c = Return (PyStr text) →
  text ≠ [] →
  ∃ s1 s2,
    _SerializeAttributeContainer c s = (Return (PyStr text), s1) ∧
    _DeserializeAttributeContainer (CONTAINER_TYPE c) (PyStr text) s1
    = (Raise (AttributeError "'str' object has no attribute 'decode'"), s2).
Proof.
  intros Hwrite Hne.
  destruct (serializers_profiler_call_return (StartTiming (CONTAINER_TYPE c)) s)
    as (sa & Hsa & _).
  destruct (serializers_profiler_call_return (StopTiming (CONTAINER_TYPE c)) sa)
    as (sb & Hsb & _).
  destruct (serializers_profiler_call_return (StartTiming (CONTAINER_TYPE c)) sb)
    as (sc & Hsc & _).
  destruct (serializers_profiler_call_return (StopTiming (CONTAINER_TYPE c)) sc)
    as (sd & Hsd & _).
  exists sb, sd.
  destruct text as [|n text]; [done|].
  split.
  - unfold _SerializeAttributeContainer.
    rewrite (bind_return _ _ _ _ _ Hsa).
    unfold try_finally, bind, lift. rewrite Hwrite. cbn [truth negb].
    unfold ret. by rewrite Hsb.
  - unfold _DeserializeAttributeContainer. cbn [truth negb decode].
    rewrite (bind_return _ _ _ _ _ Hsc).
    unfold try_finally, raise. by rewrite Hsd.
Qed.

End serialization.

Lemma DeserializeAttributeContainer_empty_witness :
  [Byte.xff] ≠ [] ∧ utf8_code_points [Byte.xff] = None ∧
  _DeserializeAttributeContainer (serializer := tag_serializer.serializer)
    _CONTAINER_TYPE_EVENT (PyBytes [Byte.xff])
    (set_serializers_profiler (Some []) examples.session_store)
  = (Raise (IOError ("Unable to decode serialized data: "
                     ++ "'utf-8' codec can't decode bytes")),
     set_serializers_profiler
       (Some [StartTiming _CONTAINER_TYPE_EVENT; StopTiming _CONTAINER_TYPE_EVENT])
       examples.session_store).
Proof.
  split; [discriminate|]. split; [reflexivity|].
  apply (proj1 (proj2 (proj2
           (DeserializeAttributeContainer_empty
              (serializer := tag_serializer.serializer) _CONTAINER_TYPE_EVENT
              (set_serializers_profiler (Some []) examples.session_store))))
           [Byte.xff]); [discriminate|reflexivity].
Defined.

Lemma serialized_text_does_not_round_trip_witness :
  WriteSerialized (Serializer := tag_serializer.serializer) examples.unset_event
  = Return (PyStr [101; 118; 101; 110; 116]%N) ∧
  ∃ s1 s2,
    _SerializeAttributeContainer (serializer := tag_serializer.serializer)
      examples.unset_event examples.session_store
    = (Return (PyStr [101; 118; 101; 110; 116]%N), s1) ∧
    _DeserializeAttributeContainer (serializer := tag_serializer.serializer)
      _CONTAINER_TYPE_EVENT (PyStr [101; 118; 101; 110; 116]%N) s1
    = (Raise (AttributeError "'str' object has no attribute 'decode'"), s2).
Proof.
  split; [reflexivity|].
  apply (serialized_text_does_not_round_trip
           (serializer := tag_serializer.serializer)
           examples.unset_event examples.session_store
           [101; 118; 101; 110; 116]%N).
  - reflexivity.
  - discriminate.
Defined.

(** ** Sessions *)

Lemma GetSessions_merge_consistent
    session_index session_start session_configuration session_completion session :
  GetSessions_merge session_index session_start session_configuration
    session_completion = Return session →
  session_consistent session.
Proof.
  unfold GetSessions_merge, sessions.CopyAttributesFromSessionConfiguration,
    sessions.CopyAttributesFromSessionCompletion,
    sessions.CopyAttributesFromSessionStart, except_ValueError, read_local,
    session_consistent, sessions.session_identifier, getattr.
  destruct session_configuration as [c|]; [case_decide|];
    destruct session_completion as [|d]; try case_decide; cbn in *;
    intros [= <-]; cbn; repeat split; intros a [= <-]; congruence.
Qed.

Lemma GetSessions_merge_mismatch
    session_index session_start session_configuration session_completion :
  identifier_mismatch session_start session_configuration session_completion →
  GetSessions_merge session_index session_start session_configuration
    session_completion
  = Raise (IOError (mismatch_message session_start session_configuration
                      session_index)).
Proof.
  unfold GetSessions_merge, mismatch_message,
    sessions.CopyAttributesFromSessionConfiguration,
    sessions.CopyAttributesFromSessionCompletion,
    sessions.CopyAttributesFromSessionStart, except_ValueError, read_local.
  intros [(c & -> & Hc)|(d & -> & Hd)]; cbn.
  - rewrite !decide_False by congruence. reflexivity.
  - destruct session_configuration as [c|]; cbn.
    + case_decide; cbn; [|reflexivity].
      rewrite decide_False by congruence. reflexivity.
    + rewrite decide_False by congruence. reflexivity.
Qed.

Lemma GetSessions_body_return session_index f session f' :
  GetSessions_body session_index f = Return (session, f') →
  ∃ session_start session_configuration session_completion,
    GetSessions_pull session_index f
    = Return (session_start, session_configuration, session_completion, f') ∧
    GetSessions_merge session_index session_start session_configuration
      session_completion = Return session.
Proof.
  unfold GetSessions_body.
  destruct (GetSessions_pull session_index f) as [[[[st cfg] comp] f1]|e];
    [|done].
  destruct (GetSessions_merge session_index st cfg comp) as [session1|e] eqn:Hm;
    [|done].
  intros [= <- <-]. eauto.
Qed.

Lemma GetSessions_loop_consistent count session_index f :
  Forall session_consistent (yielded (GetSessions_loop count session_index f)).
Proof.
  revert session_index f.
  induction count as [|count IH]; intros session_index f; cbn; [constructor|].
  destruct (GetSessions_body session_index f) as [[session f']|e] eqn:Hbody;
    cbn; [|constructor].
  constructor; [|apply IH].
  destruct (GetSessions_body_return _ _ _ _ Hbody) as (st & cfg & comp & _ & Hm).
  by eapply GetSessions_merge_consistent.
Qed.

Lemma GetSessions_loop_raise k count session_index f fk e :
  k < count →
  GetSessions_frame_at k session_index f = Some fk →
  GetSessions_body (session_index + k) fk = Raise e →
  length (yielded (GetSessions_loop count session_index f)) = k ∧
  raised (GetSessions_loop count session_index f) = Some e.
Proof.
  revert count session_index f.
  induction k as [|k IH]; intros count session_index f Hk Hframe Hbody;
    (destruct count as [|count]; [lia|]); cbn in *.
  - injection Hframe as <-. rewrite Nat.add_0_r in Hbody. by rewrite Hbody.
  - destruct (GetSessions_body session_index f) as [[session f']|e'];
      [|done]. cbn.
    rewrite Nat.add_succ_r in Hbody.
    destruct (IH count (S session_index) f' ltac:(lia) Hframe Hbody) as [-> ->].
    done.
Qed.

Section sessions_of_a_store.
Context {B : Type} {store_backend : StoreBackend B}.

(** C5. [GetSessions] never yields a session with a record of another
    identifier merged into it, and when the records pulled in an iteration
    hold a session configuration or a session completion whose identifier
    is not the one of the session start, the generator stops there: it has
    yielded the sessions before that index and raises the I/O error of the
    mismatch for that session index. *)
Theorem GetSessions_identifier_mismatch_is_fatal (s : BaseStore B) :
  Forall session_consistent (yielded (fst (GetSessions s))) ∧
  ∀ f s' k fk session_start session_configuration session_completion fk',
    GetSessions_generators s = (Return f, s') →
    k < _last_session s' →
    GetSessions_frame_at k 1 f = Some fk →
    GetSessions_pull (1 + k) fk
    = Return (session_start, session_configuration, session_completion, fk') →
    identifier_mismatch session_start session_configuration session_completion →
    length (yielded (fst (GetSessions s))) = k ∧
    raised (fst (GetSessions s))
    = Some (IOError (mismatch_message session_start session_configuration
                       (1 + k))).
Proof.
  split.
  - unfold GetSessions.
    destruct (GetSessions_generators s) as [[f|e] s']; cbn;
      [apply GetSessions_loop_consistent|constructor].
  - intros f s' k fk st cfg comp fk' Hgen Hk Hframe Hpull Hmismatch.
    unfold GetSessions. rewrite Hgen. cbn [fst].
    apply (GetSessions_loop_raise k _ 1 f fk); [done|done|].
    unfold GetSessions_body. rewrite Hpull.
    by rewrite (GetSessions_merge_mismatch _ _ _ _ Hmismatch).
Qed.

End sessions_of_a_store.

Lemma GetSessions_identifier_mismatch_is_fatal_witness :
  ∃ session_start session_configuration session_completion,
    identifier_mismatch session_start session_configuration session_completion ∧
    length (yielded (fst (GetSessions examples.store_with_other_configuration)))
    = 0 ∧
    raised (fst (GetSessions examples.store_with_other_configuration))
    = Some (IOError (mismatch_message session_start session_configuration 1)) ∧
    mismatch_message session_start session_configuration 1
    = "Session identifier mismatch for session configuration: 1".
Proof.
  exists (written_to memory.empty_store (examples.session_start "a")).
  exists (Some (written_to
                  (backend (examples.after
                              (WriteSessionStart (examples.session_start "a"))
                              examples.session_store))
                  (examples.session_configuration "b"))).
  exists (Bound (written_to
                   (backend (examples.after
                               (WriteSessionConfiguration
                                  (examples.session_configuration "b"))
                               (examples.after
                                  (WriteSessionStart (examples.session_start "a"))
                                  examples.session_store)))
                   (examples.session_completion "a"))).
  assert (Hmismatch :
            identifier_mismatch
              (written_to memory.empty_store (examples.session_start "a"))
              (Some (written_to
                       (backend (examples.after
                                   (WriteSessionStart (examples.session_start "a"))
                                   examples.session_store))
                       (examples.session_configuration "b")))
              (Bound (written_to
                        (backend (examples.after
                                    (WriteSessionConfiguration
                                       (examples.session_configuration "b"))
                                    (examples.after
                                       (WriteSessionStart
                                          (examples.session_start "a"))
                                       examples.session_store)))
                        (examples.session_completion "a")))).
  { left. eexists. split; [reflexivity|]. vm_compute. discriminate. }
  split; [exact Hmismatch|].
  refine (match proj2 (GetSessions_identifier_mismatch_is_fatal
                         examples.store_with_other_configuration)
                  _ _ 0 _ _ _ _ _ eq_refl _ eq_refl eq_refl Hmismatch
          with conj Hlength Hraised => conj Hlength (conj Hraised eq_refl) end).
  vm_compute. lia.
Defined.

(** ** Sessions of the store in memory *)

Lemma GetSessions_generators_memory (s : BaseStore memory.MemoryStore) :
  memory.is_open (backend s) = true →
  GetSessions_generators s
  = (Return
       {| session_start_generator :=
            memory.containers_of _CONTAINER_TYPE_SESSION_START (backend s);
          session_completion_generator :=
            memory.containers_of _CONTAINER_TYPE_SESSION_COMPLETION (backend s);
          session_configuration_generator :=
            if bool_decide
                 (memory.containers_of _CONTAINER_TYPE_SESSION_CONFIGURATION
                    (backend s) = [])
            then None
            else Some (memory.containers_of
                         _CONTAINER_TYPE_SESSION_CONFIGURATION (backend s));
          session_completion := Unbound |},
     s).
Proof.
  intros Hopen.
  assert (Hget : ∀ container_type,
             GetAttributeContainers container_type s
             = (Return (memory.containers_of container_type (backend s)), s)).
  { intros container_type. cbn. unfold memory.GetContainers.
    by rewrite Hopen. }
  unfold GetSessions_generators.
  rewrite (bind_return _ _ _ _ _ (Hget _)), (bind_return _ _ _ _ _ (Hget _)).
  rewrite (bind_return _ _ _ _ _ (HasAttributeContainers_memory _ s)).
  destruct (bool_decide _); cbn [negb].
  - reflexivity.
  - unfold bind at 1. rewrite (bind_return _ _ _ _ _ (Hget _)). reflexivity.
Qed.

(** C3, as amended. The generators are paired by position. In a store with
    [_last_session = 3] whose session-completion records are those of the
    first and the third session, the second session start meets the
    completion of the third session: [GetSessions] yields the first
    session, with its start and its completion merged, and then raises the
    I/O error of the identifier mismatch for session 2. *)
Theorem GetSessions_second_completion_absent
    (s : BaseStore memory.MemoryStore)
    (start1 start2 start3 completion1 completion3 : AttributeContainer) :
  memory.is_open (backend s) = true →
  _last_session s = 3 →
  memory.containers_of _CONTAINER_TYPE_SESSION_START (backend s)
  = [start1; start2; start3] →
  memory.containers_of _CONTAINER_TYPE_SESSION_COMPLETION (backend s)
  = [completion1; completion3] →
  memory.containers_of _CONTAINER_TYPE_SESSION_CONFIGURATION (backend s) = [] →
  sessions.session_identifier completion1 = sessions.session_identifier start1 →
  sessions.session_identifier completion3 ≠ sessions.session_identifier start2 →
  GetSessions s
  = ({| yielded :=
          [ {| sessions.identifier := sessions.session_identifier start1;
               sessions.start := Some (attributes start1);
               sessions.configuration := None;
               sessions.completion := Some (attributes completion1) |} ];
        raised :=
          Some (IOError "Session identifier mismatch for session completion: 2")
     |}, s).
Proof.
  intros Hopen Hlast Hstart Hcompletion Hconfiguration H1 H3.
  unfold GetSessions.
  rewrite (GetSessions_generators_memory s Hopen).
  rewrite Hlast, Hstart, Hcompletion, Hconfiguration.
  rewrite bool_decide_eq_true_2 by reflexivity.
  cbn [GetSessions_loop].
  assert (Hfirst :
    GetSessions_body 1
      {| session_start_generator := [start1; start2; start3];
         session_completion_generator := [completion1; completion3];
         session_configuration_generator := None;
         session_completion := Unbound |}
    = Return ({| sessions.identifier := sessions.session_identifier start1;
                 sessions.start := Some (attributes start1);
                 sessions.configuration := None;
                 sessions.completion := Some (attributes completion1) |},
              {| session_start_generator := [start2; start3];
                 session_completion_generator := [completion3];
                 session_configuration_generator := None;
                 session_completion := Bound completion1 |})).
  { unfold GetSessions_body, GetSessions_pull, GetSessions_merge,
      sessions.CopyAttributesFromSessionCompletion, except_ValueError. cbn.
    by rewrite decide_True. }
  assert (Hsecond :
    GetSessions_body 2
      {| session_start_generator := [start2; start3];
         session_completion_generator := [completion3];
         session_configuration_generator := None;
         session_completion := Bound completion1 |}
    = Raise (IOError "Session identifier mismatch for session completion: 2")).
  { unfold GetSessions_body. cbn [GetSessions_pull next session_start_generator
      session_completion_generator session_configuration_generator].
    rewrite GetSessions_merge_mismatch; [reflexivity|].
    right. eauto. }
  rewrite Hfirst, Hsecond. reflexivity.
Qed.

Lemma GetSessions_second_completion_absent_witness :
  memory.is_open (backend examples.store_without_second_completion) = true ∧
  _last_session examples.store_without_second_completion = 3 ∧
  GetSessions examples.store_without_second_completion
  = ({| yielded := [examples.completed_session "a"];
        raised :=
          Some (IOError "Session identifier mismatch for session completion: 2")
     |}, examples.store_without_second_completion).
Proof.
  split; [reflexivity|]. split; [reflexivity|].
  refine (GetSessions_second_completion_absent
            examples.store_without_second_completion _ _ _ _ _
            eq_refl eq_refl eq_refl eq_refl eq_refl eq_refl _).
  vm_compute. discriminate.
Defined.

(** C3 as stated fails: the store has [_last_session = 3], session starts
    [a], [b], [c] and the session completions of [a] and [c]; [GetSessions]
    yields one session, not three, and raises. *)
Lemma GetSessions_second_completion_absent_counterexample :
  _last_session examples.store_without_second_completion = 3 ∧
  map sessions.session_identifier
    (memory.containers_of _CONTAINER_TYPE_SESSION_START
       (backend examples.store_without_second_completion))
  = [Some (VStr "a"); Some (VStr "b"); Some (VStr "c")] ∧
  map sessions.session_identifier
    (memory.containers_of _CONTAINER_TYPE_SESSION_COMPLETION
       (backend examples.store_without_second_completion))
  = [Some (VStr "a"); Some (VStr "c")] ∧
  length (yielded (fst (GetSessions examples.store_without_second_completion)))
  = 1 ∧
  raised (fst (GetSessions examples.store_without_second_completion))
  = Some (IOError "Session identifier mismatch for session completion: 2").
Proof. repeat split; vm_compute; reflexivity. Qed.

(** ** The pulls of an iteration *)

Lemma GetSessions_pull_missing_start session_index f :
  session_start_generator f = [] →
  GetSessions_pull session_index f
  = Raise (IOError ("Missing session start: " ++ format_d session_index)).
Proof. intros Hs. unfold GetSessions_pull. by rewrite Hs. Qed.

Lemma GetSessions_pull_missing_configuration session_index f :
  session_start_generator f ≠ [] →
  session_configuration_generator f = Some [] →
  GetSessions_pull session_index f
  = Raise (IOError ("Missing session configuration: "
                    ++ format_d session_index)).
Proof.
  intros Hs Hc. unfold GetSessions_pull.
  destruct (session_start_generator f) as [|st g]; [done|]. cbn.
  destruct (next (session_completion_generator f)) as [[item g']|];
    by rewrite Hc.
Qed.

(** The exhausted completion generator leaves the local as it is: not
    assigned in the first iteration, the completion of the session before in
    a later one. *)
Lemma GetSessions_pull_completion_exhausted session_index f st g :
  session_start_generator f = st :: g →
  session_completion_generator f = [] →
  session_configuration_generator f = None →
  GetSessions_pull session_index f
  = Return (st, None, session_completion f,
            {| session_start_generator := g;
               session_completion_generator := [];
               session_configuration_generator := None;
               session_completion := session_completion f |}).
Proof.
  intros Hs Hc Hn. unfold GetSessions_pull. by rewrite Hs, Hc, Hn.
Qed.

Lemma GetSessions_merge_unbound session_index session_start :
  GetSessions_merge session_index session_start None Unbound
  = Raise (UnboundLocalError "session_completion").
Proof. reflexivity. Qed.

(** C6, the part the code does not do. The exhausted session-completion
    generator alone makes [GetSessions] raise: with one session started and
    no completion written the local [session_completion] is read before it
    is assigned, and with two sessions started and the first completed the
    completion of the first session is merged into the second. *)
Theorem GetSessions_completion_exhausted_raises :
  _last_session examples.store_with_start_only = 1 ∧
  length (memory.containers_of _CONTAINER_TYPE_SESSION_START
            (backend examples.store_with_start_only)) = 1 ∧
  memory.containers_of _CONTAINER_TYPE_SESSION_COMPLETION
    (backend examples.store_with_start_only) = [] ∧
  fst (GetSessions examples.store_with_start_only)
  = {| yielded := [];
       raised := Some (UnboundLocalError "session_completion") |} ∧
  _last_session examples.store_without_last_completion = 2 ∧
  fst (GetSessions examples.store_without_last_completion)
  = {| yielded := [examples.completed_session "a"];
       raised :=
         Some (IOError "Session identifier mismatch for session completion: 2")
    |}.
Proof. repeat split; vm_compute; reflexivity. Qed.

(** The scenario of one session started and completed: one session, with
    both records merged, and no error. *)
Example GetSessions_one_session :
  fst (GetSessions
         (examples.after (WriteSessionCompletion (examples.session_completion "a"))
            examples.store_with_start_only))
  = {| yielded := [examples.completed_session "a"]; raised := None |}.
Proof. vm_compute. reflexivity. Qed.

(** * Further properties *)

(** ** Serialization and the profiler *)

Section serialization_outcomes.
Context {B : Type} {serializer : Serializer}.

Lemma serializers_profiler_call_profiled call (s : BaseStore B) :
  serializers_profiler_call call s = (Return tt, profiled [call] s).
Proof.
  unfold serializers_profiler_call, profiled.
  by destruct (_serializers_profiler s).
Qed.

Lemma profiled_profiled calls1 calls2 (s : BaseStore B) :
  profiled calls2 (profiled calls1 s) = profiled (calls1 ++ calls2) s.
Proof.
  unfold profiled.
  destruct (_serializers_profiler s) as [seen|] eqn:Hp; cbn; [|by rewrite Hp].
  by rewrite app_assoc.
Qed.

Lemma try_finally_profiler {A} (r : result A) call (s : BaseStore B) :
  try_finally (lift r) (serializers_profiler_call call) s
  = (r, profiled [call] s).
Proof.
  unfold try_finally, lift. by rewrite serializers_profiler_call_profiled.
Qed.

(** The outcome of the [try] block of [_DeserializeAttributeContainer] as a
    value, and the store after the call. *)
Lemma DeserializeAttributeContainer_data container_type v (s : BaseStore B) :
  truth v = true →
  _DeserializeAttributeContainer container_type v s
  = (match
       match decode v with
       | Return serialized_string => ReadSerialized serialized_string
       | Raise e => Raise e
       end
     with
     | Return attribute_container => Return attribute_container
     | Raise (UnicodeDecodeError _ as exception) =>
         Raise (IOError ("Unable to decode serialized data: " ++ str exception))
     | Raise ((TypeError _ | ValueError _) as exception) =>
         Raise (IOError ("Unable to read serialized data: " ++ str exception))
     | Raise e => Raise e
     end,
     profiled [StartTiming container_type; StopTiming container_type] s).
Proof.
  intros Htruth. unfold _DeserializeAttributeContainer. rewrite Htruth.
  cbn [negb].
  rewrite (bind_return _ _ _ _ _ (serializers_profiler_call_profiled _ s)).
  destruct (match decode v with
            | Return serialized_string => ReadSerialized serialized_string
            | Raise e => Raise e
            end) as [c|[m|m|m|m|m|n]];
    (etransitivity; [apply try_finally_profiler|]);
    by rewrite profiled_profiled.
Qed.

Lemma SerializeAttributeContainer_outcome_state c (s : BaseStore B) :
  _SerializeAttributeContainer c s
  = (match WriteSerialized c with
     | Return data =>
         if truth data
         then Return data
         else Raise (IOError ("Unable to serialize attribute container: "
                              ++ CONTAINER_TYPE c ++ "."))
     | Raise e => Raise e
     end,
     profiled [StartTiming (CONTAINER_TYPE c); StopTiming (CONTAINER_TYPE c)] s).
Proof.
  unfold _SerializeAttributeContainer.
  rewrite (bind_return _ _ _ _ _ (serializers_profiler_call_profiled _ s)).
  unfold bind at 1, lift.
  destruct (WriteSerialized c) as [data|e]; [destruct (truth data)|]; cbn [negb];
    (etransitivity; [apply try_finally_profiler|]);
    by rewrite profiled_profiled.
Qed.

(** X1. Timing is balanced. [_SerializeAttributeContainer] leaves the store
    as it was but for the serializers profiler, which saw one [StartTiming]
    and one [StopTiming] of the container type, whether the call returned or
    raised; so does [_DeserializeAttributeContainer] on data that is not
    empty.  Without a profiler the store is unchanged. *)
Theorem serialization_timing_is_balanced :
  (∀ c (s : BaseStore B),
     snd (_SerializeAttributeContainer c s)
     = profiled [StartTiming (CONTAINER_TYPE c); StopTiming (CONTAINER_TYPE c)] s) ∧
  (∀ container_type data (s : BaseStore B),
     data ≠ [] →
     snd (_DeserializeAttributeContainer container_type (PyBytes data) s)
     = profiled [StartTiming container_type; StopTiming container_type] s) ∧
  (∀ calls (s : BaseStore B), _serializers_profiler s = None → profiled calls s = s).
Proof.
  split; [|split].
  - intros c s. by rewrite SerializeAttributeContainer_outcome_state.
  - intros container_type [|b data] s Hne; [done|].
    by rewrite DeserializeAttributeContainer_data.
  - intros calls s Hp. unfold profiled. by rewrite Hp.
Qed.

(** X2. What [_SerializeAttributeContainer] gives: the data of
    [WriteSerialized] as it is when it is not empty, the I/O error naming the
    container type when it is empty, and the exception of [WriteSerialized]
    itself, not an I/O error, when it raises. *)
Theorem SerializeAttributeContainer_outcome c (s : BaseStore B) :
  fst (_SerializeAttributeContainer c s)
  = match WriteSerialized c with
    | Return data =>
        if truth data
        then Return data
        else Raise (IOError ("Unable to serialize attribute container: "
                             ++ CONTAINER_TYPE c ++ "."))
    | Raise e => Raise e
    end.
Proof. by rewrite SerializeAttributeContainer_outcome_state. Qed.

(** X4. What [_DeserializeAttributeContainer] makes of the errors, on bytes
    that are not empty.  Bytes that are not UTF-8, and a
    [UnicodeDecodeError] of [ReadSerialized], reach the caller as the I/O
    error of the decoding; a [ValueError] and a [TypeError] of
    [ReadSerialized] as the I/O error of the reading, each with the text of
    the exception.  Any other exception of [ReadSerialized], an
    [AttributeError] for one, reaches the caller as it is, and what
    [ReadSerialized] returns, [None] too, is returned as it is. *)
Theorem DeserializeAttributeContainer_errors
    container_type (data : list Byte.byte) (s : BaseStore B) :
  data ≠ [] →
  (∀ e, decode_utf8 data = Raise e →
     fst (_DeserializeAttributeContainer container_type (PyBytes data) s)
     = Raise (IOError ("Unable to decode serialized data: " ++ str e))) ∧
  (∀ text, decode_utf8 data = Return text →
     (∀ r, ReadSerialized text = Return r →
        fst (_DeserializeAttributeContainer container_type (PyBytes data) s)
        = Return r) ∧
     (∀ m, ReadSerialized text = Raise (UnicodeDecodeError m) →
        fst (_DeserializeAttributeContainer container_type (PyBytes data) s)
        = Raise (IOError ("Unable to decode serialized data: " ++ m))) ∧
     (∀ m, ReadSerialized text = Raise (ValueError m) →
        fst (_DeserializeAttributeContainer container_type (PyBytes data) s)
        = Raise (IOError ("Unable to read serialized data: " ++ m))) ∧
     (∀ m, ReadSerialized text = Raise (TypeError m) →
        fst (_DeserializeAttributeContainer container_type (PyBytes data) s)
        = Raise (IOError ("Unable to read serialized data: " ++ m))) ∧
     (∀ e, ReadSerialized text = Raise e →
        is_ValueError e = false → (∀ m, e ≠ TypeError m) →
        fst (_DeserializeAttributeContainer container_type (PyBytes data) s)
        = Raise e)).
Proof.
  intros Hne.
  assert (Htruth : truth (PyBytes data) = true) by by destruct data.
  rewrite (DeserializeAttributeContainer_data _ _ _ Htruth). cbn [fst decode].
  split.
  - intros e He. rewrite He.
    unfold decode_utf8 in He. destruct (utf8_code_points data); [done|].
    by injection He as <-.
  - intros text Htext. rewrite Htext.
    repeat split.
    + by intros r ->.
    + by intros m ->.
    + by intros m ->.
    + by intros m ->.
    + intros e -> Hv Ht. destruct e as [m|m|m|m|m|n]; try done.
      by destruct (Ht m).
Qed.

(** X5. The container type passed to [_DeserializeAttributeContainer] is
    the key of the profiler and nothing else: what the call returns or
    raises is the same for every container type and every store. *)
Theorem DeserializeAttributeContainer_ignores_container_type
    container_type1 container_type2 serialized_data (s1 s2 : BaseStore B) :
  fst (_DeserializeAttributeContainer container_type1 serialized_data s1)
  = fst (_DeserializeAttributeContainer container_type2 serialized_data s2).
Proof.
  destruct (truth serialized_data) eqn:Htruth.
  - by rewrite !DeserializeAttributeContainer_data.
  - unfold _DeserializeAttributeContainer. by rewrite Htruth.
Qed.

End serialization_outcomes.

Lemma serialization_timing_is_balanced_witness :
  [Byte.xff] ≠ [] ∧
  snd (_DeserializeAttributeContainer (serializer := tag_serializer.serializer)
         _CONTAINER_TYPE_EVENT (PyBytes [Byte.xff])
         (set_serializers_profiler (Some []) examples.session_store))
  = set_serializers_profiler
      (Some [StartTiming _CONTAINER_TYPE_EVENT; StopTiming _CONTAINER_TYPE_EVENT])
      examples.session_store.
Proof.
  split; [discriminate|].
  apply (proj1 (proj2 (serialization_timing_is_balanced
                         (serializer := tag_serializer.serializer)))
           _CONTAINER_TYPE_EVENT [Byte.xff]
           (set_serializers_profiler (Some []) examples.session_store)).
  discriminate.
Defined.

Lemma DeserializeAttributeContainer_errors_witness :
  [Byte.xc3; Byte.xa9] ≠ [] ∧
  decode_utf8 [Byte.xc3; Byte.xa9] = Return [233%N] ∧
  ReadSerialized (Serializer := tag_serializer.serializer) [233%N]
  = Raise (ValueError "unsupported character") ∧
  fst (_DeserializeAttributeContainer (serializer := tag_serializer.serializer)
         _CONTAINER_TYPE_EVENT (PyBytes [Byte.xc3; Byte.xa9])
         examples.session_store)
  = Raise (IOError ("Unable to read serialized data: "
                    ++ "unsupported character")).
Proof.
  split; [discriminate|]. split; [reflexivity|]. split; [reflexivity|].
  assert (Hne : [Byte.xc3; Byte.xa9] ≠ []) by discriminate.
  assert (Hdecode : decode_utf8 [Byte.xc3; Byte.xa9] = Return [233%N])
    by reflexivity.
  apply (proj1 (proj2 (proj2
           (proj2 (DeserializeAttributeContainer_errors
                     (serializer := tag_serializer.serializer)
                     _CONTAINER_TYPE_EVENT [Byte.xc3; Byte.xa9]
                     examples.session_store Hne)
              [233%N] Hdecode)))).
  reflexivity.
Defined.

(** ** The writers, for every backend *)

Section writers.
Context {B : Type} {store_backend : StoreBackend B}.

(** X6. The writable-state check comes first in every writer: when it
    raises, [WriteSessionStart], [WriteSessionCompletion],
    [WriteSessionConfiguration], [WriteTaskStart] and [WriteTaskCompletion]
    raise that error and leave the store as the check left it, whatever the
    storage type; the storage-type error is not the one reported and the
    store is not asked for its containers. *)
Theorem writers_check_writable_first
    (container : AttributeContainer) (s s' : BaseStore B) (e : exception) :
  _RaiseIfNotWritable s = (Raise e, s') →
  WriteSessionStart container s = (Raise e, s') ∧
  WriteSessionCompletion container s = (Raise e, s') ∧
  WriteSessionConfiguration container s = (Raise e, s') ∧
  WriteTaskStart container s = (Raise e, s') ∧
  WriteTaskCompletion container s = (Raise e, s').
Proof.
  intros Hw.
  unfold WriteSessionStart, WriteSessionCompletion, WriteSessionConfiguration,
    WriteTaskStart, WriteTaskCompletion.
  repeat split; by apply bind_raise.
Qed.

(** X7. On a store whose storage type is the one of the writer,
    [WriteSessionStart] and [WriteSessionCompletion] (session), and
    [WriteTaskStart] and [WriteTaskCompletion] (task), are
    [AddAttributeContainer]: same outcome, same store. *)
Theorem typed_writers_are_AddAttributeContainer
    (container : AttributeContainer) (s s1 : BaseStore B) :
  _RaiseIfNotWritable s = (Return tt, s1) →
  (storage_type s1 = definitions.STORAGE_TYPE_SESSION →
   WriteSessionStart container s = AddAttributeContainer container s ∧
   WriteSessionCompletion container s = AddAttributeContainer container s) ∧
  (storage_type s1 = definitions.STORAGE_TYPE_TASK →
   WriteTaskStart container s = AddAttributeContainer container s ∧
   WriteTaskCompletion container s = AddAttributeContainer container s).
Proof.
  intros Hw.
  unfold WriteSessionStart, WriteSessionCompletion, WriteTaskStart,
    WriteTaskCompletion, AddAttributeContainer.
  rewrite !(bind_return _ _ _ _ _ Hw), !(bind_return _ _ _ _ _ (get_return s1)).
  split; intros Ht; split; by rewrite decide_False by (by intros []).
Qed.

(** X8. On a writable store whose storage type is not the one of the
    writer, the writer raises its I/O error and the store is as the check
    left it: nothing is written.  The message of [WriteTaskStart] speaks of
    the task completion and the one of [WriteTaskCompletion] of the task
    start, as in the source.  No storage type is both, so no store takes
    a session start and a task start. *)
Theorem typed_writers_reject_other_storage_type
    (container : AttributeContainer) (s s1 : BaseStore B) :
  _RaiseIfNotWritable s = (Return tt, s1) →
  (storage_type s1 ≠ definitions.STORAGE_TYPE_SESSION →
   WriteSessionStart container s
   = (Raise (IOError "Session start not supported by storage type."), s1) ∧
   WriteSessionCompletion container s
   = (Raise (IOError "Session completion not supported by storage type."), s1)) ∧
  (storage_type s1 ≠ definitions.STORAGE_TYPE_TASK →
   WriteTaskStart container s
   = (Raise (IOError "Task completion not supported by storage type."), s1) ∧
   WriteTaskCompletion container s
   = (Raise (IOError "Task start not supported by storage type."), s1)) ∧
  (is_raise (fst (WriteSessionStart container s))
   || is_raise (fst (WriteTaskStart container s)) = true).
Proof.
  intros Hw.
  unfold WriteSessionStart, WriteSessionCompletion, WriteTaskStart,
    WriteTaskCompletion.
  rewrite !(bind_return _ _ _ _ _ Hw), !(bind_return _ _ _ _ _ (get_return s1)).
  split; [|split].
  - intros Ht. by rewrite !decide_True.
  - intros Ht. by rewrite !decide_True.
  - destruct (decide (storage_type s1 = definitions.STORAGE_TYPE_SESSION))
      as [Hs|Hs].
    + rewrite (decide_True (P := storage_type s1 ≠ definitions.STORAGE_TYPE_TASK)).
      * apply orb_true_r.
      * rewrite Hs. discriminate.
    + by rewrite (decide_True (P := storage_type s1 ≠ definitions.STORAGE_TYPE_SESSION)).
Qed.

End writers.

Lemma writers_check_writable_first_witness :
  _RaiseIfNotWritable examples.closed_store
  = (Raise (IOError "Unable to write to closed store."), examples.closed_store) ∧
  storage_type examples.closed_store ≠ definitions.STORAGE_TYPE_TASK ∧
  WriteTaskStart examples.task_start examples.closed_store
  = (Raise (IOError "Unable to write to closed store."), examples.closed_store).
Proof.
  split; [reflexivity|]. split; [discriminate|].
  apply (writers_check_writable_first examples.task_start
           examples.closed_store examples.closed_store
           (IOError "Unable to write to closed store.")).
  reflexivity.
Defined.

Lemma typed_writers_are_AddAttributeContainer_witness :
  _RaiseIfNotWritable examples.session_store = (Return tt, examples.session_store) ∧
  storage_type examples.session_store = definitions.STORAGE_TYPE_SESSION ∧
  WriteSessionStart (examples.session_start "a") examples.session_store
  = AddAttributeContainer (examples.session_start "a") examples.session_store ∧
  WriteSessionCompletion (examples.session_start "a") examples.session_store
  = AddAttributeContainer (examples.session_start "a") examples.session_store.
Proof.
  split; [reflexivity|]. split; [reflexivity|].
  assert (Hw : _RaiseIfNotWritable examples.session_store
               = (Return tt, examples.session_store)) by reflexivity.
  apply (proj1 (typed_writers_are_AddAttributeContainer
                  (examples.session_start "a")
                  examples.session_store examples.session_store Hw)).
  reflexivity.
Defined.

Lemma typed_writers_reject_other_storage_type_witness :
  _RaiseIfNotWritable examples.task_store = (Return tt, examples.task_store) ∧
  storage_type examples.task_store ≠ definitions.STORAGE_TYPE_SESSION ∧
  WriteSessionStart (examples.session_start "a") examples.task_store
  = (Raise (IOError "Session start not supported by storage type."),
     examples.task_store) ∧
  WriteSessionCompletion (examples.session_start "a") examples.task_store
  = (Raise (IOError "Session completion not supported by storage type."),
     examples.task_store).
Proof.
  split; [reflexivity|]. split; [discriminate|].
  assert (Hw : _RaiseIfNotWritable examples.task_store
               = (Return tt, examples.task_store)) by reflexivity.
  apply (proj1 (typed_writers_reject_other_storage_type
                  (examples.session_start "a")
                  examples.task_store examples.task_store Hw)).
  discriminate.
Defined.

(** ** The reader as a context manager, again *)

Section reader_exceptions.
Context {R : Type} {reader_backend : ReaderBackend R}.

(** X9. [__exit__] never swallows an exception: when the body of the
    [with] statement raises, the statement raises, the exception of the body
    when [Close] returns and the exception of [Close] when [Close] raises;
    and when the body returns, the statement raises only what [Close]
    raises. *)
Theorem with_statement_never_suppresses (body : M R unit) (s s1 : R) r :
  body s = (r, s1) →
  (∀ s2, Close s1 = (Return tt, s2) → with_statement body s = (r, s2)) ∧
  (∀ e' s2, Close s1 = (Raise e', s2) →
            with_statement body s = (Raise e', s2)) ∧
  (is_raise r = true → is_raise (fst (with_statement body s)) = true).
Proof.
  intros Hbody.
  unfold with_statement, __enter__, __exit__, bind, ret. rewrite Hbody.
  destruct r as [[]|e]; (split; [|split]).
  - intros s2 ->. reflexivity.
  - intros e' s2 ->. reflexivity.
  - done.
  - intros s2 ->. reflexivity.
  - intros e' s2 ->. reflexivity.
  - intros _. by destruct (Close s1) as [[[]|e'] s2].
Qed.

End reader_exceptions.

Lemma with_statement_never_suppresses_witness :
  raise (A := unit) (ValueError "body")
    {| examples.closed := false; examples.close_calls := 0 |}
  = (Raise (ValueError "body"),
     {| examples.closed := false; examples.close_calls := 0 |}) ∧
  is_raise (fst (with_statement (raise (ValueError "body"))
                   {| examples.closed := false; examples.close_calls := 0 |}))
  = true.
Proof.
  split; [reflexivity|].
  assert (Hbody : raise (A := unit) (ValueError "body")
                    {| examples.closed := false; examples.close_calls := 0 |}
                  = (Raise (ValueError "body"),
                     {| examples.closed := false; examples.close_calls := 0 |}))
    by reflexivity.
  apply (proj2 (proj2 (with_statement_never_suppresses
                         (raise (ValueError "body"))
                         {| examples.closed := false; examples.close_calls := 0 |}
                         {| examples.closed := false; examples.close_calls := 0 |}
                         (Raise (ValueError "body")) Hbody))).
  reflexivity.
Defined.

(** ** The system configuration *)

Section system_configuration.
Context {B : Type} {store_backend : StoreBackend B}.

Lemma foldl_snoc {A} (l0 l : list A) :
  foldl (λ acc x, (acc ++ [x])%list) l0 l = (l0 ++ l)%list.
Proof.
  revert l0. induction l as [|x l IH]; intros l0; cbn.
  - by rewrite app_nil_r.
  - by rewrite IH, <- app_assoc.
Qed.

(** X10. [ReadSystemConfiguration] hands the knowledge base the
    system-configuration artifacts of the store, each once and in the order
    of the generator, after what the knowledge base had; when the store has
    none it does not call [GetAttributeContainers] and the knowledge base
    is as before. *)
Theorem ReadSystemConfiguration_reads_in_order
    (knowledge_base : list AttributeContainer) (s s1 : BaseStore B) (has : bool) :
  HasAttributeContainers _CONTAINER_TYPE_SYSTEM_CONFIGURATION s = (Return has, s1) →
  (has = false →
   ReadSystemConfiguration knowledge_base s = (Return knowledge_base, s1)) ∧
  (has = true →
   ∀ generator s2,
     GetAttributeContainers _CONTAINER_TYPE_SYSTEM_CONFIGURATION s1
     = (Return generator, s2) →
     ReadSystemConfiguration knowledge_base s
     = (Return (knowledge_base ++ generator)%list, s2)) ∧
  (has = true →
   ∀ e s2,
     GetAttributeContainers _CONTAINER_TYPE_SYSTEM_CONFIGURATION s1
     = (Raise e, s2) →
     ReadSystemConfiguration knowledge_base s = (Raise e, s2)).
Proof.
  intros Hhas. unfold ReadSystemConfiguration.
  rewrite (bind_return _ _ _ _ _ Hhas).
  split; [|split].
  - by intros ->.
  - intros -> generator s2 Hget.
    rewrite (bind_return _ _ _ _ _ Hget). unfold ret. by rewrite foldl_snoc.
  - intros -> e s2 Hget. by apply bind_raise.
Qed.

End system_configuration.

(** ** The sessions, iteration by iteration *)

Lemma GetSessions_pull_return session_index f st cfg comp f' :
  GetSessions_pull session_index f = Return (st, cfg, comp, f') →
  session_start_generator f = st :: session_start_generator f' ∧
  session_completion f' = comp ∧
  ((session_completion_generator f = [] ∧ comp = session_completion f ∧
    session_completion_generator f' = [])
   ∨ (∃ c, session_completion_generator f = c :: session_completion_generator f' ∧
           comp = Bound c)) ∧
  ((session_configuration_generator f = None ∧ cfg = None ∧
    session_configuration_generator f' = None)
   ∨ (∃ c g, session_configuration_generator f = Some (c :: g) ∧ cfg = Some c ∧
             session_configuration_generator f' = Some g)).
Proof.
  unfold GetSessions_pull.
  destruct (session_start_generator f) as [|st0 g]; [done|]. cbn.
  destruct (session_completion_generator f) as [|c0 gc]; cbn;
    (destruct (session_configuration_generator f) as [[|k gk]|]; cbn; [done| |]);
    intros [= <- <- <- <-]; cbn; repeat split; eauto 8.
Qed.

Lemma GetSessions_merge_return session_index st cfg comp session :
  GetSessions_merge session_index st cfg comp = Return session →
  sessions.start session = Some (attributes st) ∧
  sessions.identifier session = sessions.session_identifier st.
Proof.
  unfold GetSessions_merge, sessions.CopyAttributesFromSessionConfiguration,
    sessions.CopyAttributesFromSessionCompletion,
    sessions.CopyAttributesFromSessionStart, except_ValueError, read_local.
  destruct cfg as [c|]; [case_decide|]; destruct comp as [|d];
    try case_decide; cbn in *; by intros [= <-].
Qed.

Lemma GetSessions_merge_aligned session_index st cfg comp :
  (∀ c, cfg = Some c →
        sessions.session_identifier c = sessions.session_identifier st) →
  sessions.session_identifier comp = sessions.session_identifier st →
  GetSessions_merge session_index st cfg (Bound comp)
  = Return (merged_session st cfg comp).
Proof.
  intros Hcfg Hcomp.
  unfold GetSessions_merge, sessions.CopyAttributesFromSessionConfiguration,
    sessions.CopyAttributesFromSessionCompletion,
    sessions.CopyAttributesFromSessionStart, except_ValueError, read_local,
    merged_session.
  destruct cfg as [c|]; cbn.
  - rewrite decide_True by (symmetry; by apply Hcfg). cbn.
    by rewrite decide_True.
  - by rewrite decide_True.
Qed.


Lemma GetSessions_loop_starts count session_index f i session :
  yielded (GetSessions_loop count session_index f) !! i = Some session →
  ∃ st, session_start_generator f !! i = Some st ∧
        sessions.start session = Some (attributes st) ∧
        sessions.identifier session = sessions.session_identifier st.
Proof.
  revert session_index f i.
  induction count as [|count IH]; intros session_index f i; cbn; [done|].
  destruct (GetSessions_body session_index f) as [[session0 f']|e] eqn:Hbody;
    cbn; [|done].
  destruct (GetSessions_body_return _ _ _ _ Hbody)
    as (st & cfg & comp & Hpull & Hmerge).
  destruct (GetSessions_pull_return _ _ _ _ _ _ Hpull) as (Hstart & _).
  rewrite Hstart.
  destruct i as [|i]; cbn.
  - intros [= <-]. exists st. split; [done|].
    by eapply GetSessions_merge_return.
  - apply IH.
Qed.

Lemma GetSessions_loop_aligned count session_index f :
  aligned count f →
  raised (GetSessions_loop count session_index f) = None ∧
  length (yielded (GetSessions_loop count session_index f)) = count ∧
  ∀ i st comp,
    (i < count)%nat →
    session_start_generator f !! i = Some st →
    session_completion_generator f !! i = Some comp →
    yielded (GetSessions_loop count session_index f) !! i
    = Some (merged_session st
              (session_configuration_generator f ≫= (.!! i)) comp).
Proof.
  revert session_index f.
  induction count as [|count IH]; intros session_index f Haligned; cbn.
  { split; [done|]. split; [done|]. intros; lia. }
  destruct (Haligned 0 ltac:(lia)) as (st0 & comp0 & Hst0 & Hcomp0 & Hid0 & Hcfg0).
  destruct f as [starts comps cfgs v]; cbn in *.
  destruct starts as [|? starts]; [done|]. injection Hst0 as ->.
  destruct comps as [|? comps]; [done|]. injection Hcomp0 as ->.
  assert (Hbody :
    GetSessions_body session_index (mkFrame (st0 :: starts) (comp0 :: comps) cfgs v)
    = Return (merged_session st0 (cfgs ≫= (.!! 0)) comp0,
              mkFrame starts comps (tail <$> cfgs) (Bound comp0))).
  { unfold GetSessions_body, GetSessions_pull.
    cbn -[GetSessions_merge merged_session].
    destruct cfgs as [[|c0 g]|]; cbn -[GetSessions_merge merged_session].
    - by destruct Hcfg0 as (c & [=] & _).
    - destruct Hcfg0 as (c & [= <-] & Hc).
      rewrite GetSessions_merge_aligned; [done| |done].
      by intros ? [= <-].
    - by rewrite GetSessions_merge_aligned. }
  rewrite Hbody. cbn.
  assert (Hrest : aligned count (mkFrame starts comps (tail <$> cfgs) (Bound comp0))).
  { intros i Hi.
    destruct (Haligned (S i) ltac:(lia)) as (st & comp & Hst & Hcomp & Hid & Hcfg).
    exists st, comp. cbn in *. split; [done|]. split; [done|]. split; [done|].
    destruct cfgs as [[|c0 g]|]; cbn in *; done. }
  destruct (IH (S session_index) _ Hrest) as (Hraised & Hlength & Hnth).
  split; [done|]. split; [by rewrite Hlength|].
  intros [|i] st comp Hi Hst Hcomp.
  - cbn in Hst, Hcomp. by injection Hst as <-; injection Hcomp as <-.
  - cbn in Hst, Hcomp.
    change (yielded (GetSessions_loop count (S session_index)
                       (mkFrame starts comps (tail <$> cfgs) (Bound comp0)))
            !! i
            = Some (merged_session st (cfgs ≫= (.!! S i)) comp)).
    rewrite (Hnth i st comp ltac:(lia) Hst Hcomp).
    by destruct cfgs as [[|c0 g]|].
Qed.

Lemma GetSessions_loop_missing_start count session_index f :
  (length (session_start_generator f) < count)%nat →
  ∃ e, raised (GetSessions_loop count session_index f) = Some e ∧
       (length (yielded (GetSessions_loop count session_index f))
        ≤ length (session_start_generator f))%nat ∧
       (length (yielded (GetSessions_loop count session_index f))
        = length (session_start_generator f) →
        e = IOError ("Missing session start: "
                     ++ format_d (session_index
                                  + length (session_start_generator f)))).
Proof.
  revert session_index f.
  induction count as [|count IH]; intros session_index f Hlt; [lia|]. cbn.
  destruct (GetSessions_body session_index f) as [[session f']|e] eqn:Hbody; cbn.
  - destruct (GetSessions_body_return _ _ _ _ Hbody)
      as (st & cfg & comp & Hpull & _).
    destruct (GetSessions_pull_return _ _ _ _ _ _ Hpull) as (Hstart & _).
    rewrite Hstart in *. cbn in *.
    destruct (IH (S session_index) f' ltac:(lia)) as (e & He & Hle & Hmsg).
    exists e. split; [done|]. split; [lia|].
    intros Hlen. rewrite Hmsg by lia. by rewrite Nat.add_succ_r.
  - exists e. split; [done|]. split; [lia|].
    intros Hlen. symmetry in Hlen. apply length_zero_iff_nil in Hlen.
    unfold GetSessions_body in Hbody.
    rewrite (GetSessions_pull_missing_start _ _ Hlen) in Hbody.
    injection Hbody as <-. by rewrite Hlen, Nat.add_0_r.
Qed.

Lemma ReadSystemConfiguration_reads_in_order_witness :
  HasAttributeContainers _CONTAINER_TYPE_SYSTEM_CONFIGURATION
    scenarios.store_with_system_configuration
  = (Return true, scenarios.store_with_system_configuration) ∧
  map (λ c, getattr c "hostname")
    (match fst (ReadSystemConfiguration [scenarios.system_configuration "old"]
                  scenarios.store_with_system_configuration) with
     | Return knowledge_base => knowledge_base
     | Raise _ => []
     end)
  = [Some (VStr "old"); Some (VStr "alpha"); Some (VStr "beta")].
Proof.
  split; [reflexivity|].
  assert (Hhas : HasAttributeContainers _CONTAINER_TYPE_SYSTEM_CONFIGURATION
                   scenarios.store_with_system_configuration
                 = (Return true, scenarios.store_with_system_configuration))
    by reflexivity.
  rewrite (proj1 (proj2 (ReadSystemConfiguration_reads_in_order
                           [scenarios.system_configuration "old"]
                           scenarios.store_with_system_configuration
                           scenarios.store_with_system_configuration true Hhas))
             eq_refl
             (memory.containers_of _CONTAINER_TYPE_SYSTEM_CONFIGURATION
                (backend scenarios.store_with_system_configuration))
             scenarios.store_with_system_configuration eq_refl).
  reflexivity.
Defined.

(** ** The sessions of a store, for every backend *)

Section sessions_of_every_store.
Context {B : Type} {store_backend : StoreBackend B}.

Lemma GetSessions_of_generators (s s' : BaseStore B) f :
  GetSessions_generators s = (Return f, s') →
  GetSessions s = (GetSessions_loop (_last_session s') 1 f, s').
Proof. intros Hgen. unfold GetSessions. by rewrite Hgen. Qed.

Lemma GetSessions_generators_unbound (s s' : BaseStore B) f :
  GetSessions_generators s = (Return f, s') →
  session_completion f = Unbound.
Proof.
  unfold GetSessions_generators, bind, ret.
  destruct (GetAttributeContainers _CONTAINER_TYPE_SESSION_START s)
    as [[l1|e1] s1]; [|done].
  destruct (GetAttributeContainers _CONTAINER_TYPE_SESSION_COMPLETION s1)
    as [[l2|e2] s2]; [|done].
  destruct (HasAttributeContainers _CONTAINER_TYPE_SESSION_CONFIGURATION s2)
    as [[[|]|e3] s3]; [| |done].
  - destruct (GetAttributeContainers _CONTAINER_TYPE_SESSION_CONFIGURATION s3)
      as [[l4|e4] s4]; [|done].
    by intros [= <- <-].
  - by intros [= <- <-].
Qed.


(** X12. The sessions come in the order of the session starts, one for
    each: the session yielded at position [i] has the attributes and the
    identifier of the session start at position [i] of its generator. *)
Theorem GetSessions_sessions_follow_starts
    (s s' : BaseStore B) f i session :
  GetSessions_generators s = (Return f, s') →
  yielded (fst (GetSessions s)) !! i = Some session →
  ∃ st, session_start_generator f !! i = Some st ∧
        sessions.start session = Some (attributes st) ∧
        sessions.identifier session = sessions.session_identifier st.
Proof.
  intros Hgen. rewrite (GetSessions_of_generators _ _ _ Hgen). cbn [fst].
  apply GetSessions_loop_starts.
Qed.

(** X13. When the first [_last_session] records of the generators line
    up, each session start with a completion, and with a configuration if
    the store has configurations, of its identifier, [GetSessions] ends
    without an exception after [_last_session] sessions, and the session at
    position [i] is the start, the configuration and the completion at
    position [i] merged. *)
Theorem GetSessions_of_aligned_records (s s' : BaseStore B) f :
  GetSessions_generators s = (Return f, s') →
  aligned (_last_session s') f →
  raised (fst (GetSessions s)) = None ∧
  length (yielded (fst (GetSessions s))) = _last_session s' ∧
  ∀ i st comp,
    (i < _last_session s')%nat →
    session_start_generator f !! i = Some st →
    session_completion_generator f !! i = Some comp →
    yielded (fst (GetSessions s)) !! i
    = Some (merged_session st
              (session_configuration_generator f ≫= (.!! i)) comp).
Proof.
  intros Hgen. rewrite (GetSessions_of_generators _ _ _ Hgen). cbn [fst].
  apply GetSessions_loop_aligned.
Qed.

(** X14. A store that counts more sessions than it has session starts
    makes [GetSessions] raise: it yields no more sessions than there are
    starts, and when it has yielded one for each start the exception is the
    I/O error of the missing session start, with the index after the last
    start. *)
Theorem GetSessions_missing_session_start (s s' : BaseStore B) f :
  GetSessions_generators s = (Return f, s') →
  (length (session_start_generator f) < _last_session s')%nat →
  ∃ e, raised (fst (GetSessions s)) = Some e ∧
       (length (yielded (fst (GetSessions s)))
        ≤ length (session_start_generator f))%nat ∧
       (length (yielded (fst (GetSessions s)))
        = length (session_start_generator f) →
        e = IOError ("Missing session start: "
                     ++ format_d (1 + length (session_start_generator f)))).
Proof.
  intros Hgen. rewrite (GetSessions_of_generators _ _ _ Hgen). cbn [fst].
  apply GetSessions_loop_missing_start.
Qed.

(** X15. From a store without any session completion [GetSessions] yields
    no session: with [_last_session] at least 1 the first iteration raises,
    and when there is a session start and no configuration generator the
    exception is the [UnboundLocalError] of the local [session_completion],
    not an I/O error. *)
Theorem GetSessions_without_completions (s s' : BaseStore B) f :
  GetSessions_generators s = (Return f, s') →
  session_completion_generator f = [] →
  (0 < _last_session s')%nat →
  yielded (fst (GetSessions s)) = [] ∧
  ∃ e, raised (fst (GetSessions s)) = Some e ∧
       (session_start_generator f ≠ [] →
        session_configuration_generator f = None →
        e = UnboundLocalError "session_completion").
Proof.
  intros Hgen Hcomp Hlast.
  rewrite (GetSessions_of_generators _ _ _ Hgen). cbn [fst].
  pose proof (GetSessions_generators_unbound _ _ _ Hgen) as Hunbound.
  destruct (_last_session s') as [|count]; [lia|]. cbn.
  unfold GetSessions_body.
  destruct (GetSessions_pull 1 f) as [[[[st cfg] comp] f']|e] eqn:Hpull; cbn.
  - destruct (GetSessions_pull_return _ _ _ _ _ _ Hpull)
      as (Hstart & _ & [(_ & -> & _)|(c & Hc & _)] & Hcfg);
      [|by rewrite Hcomp in Hc].
    rewrite Hunbound.
    assert (Hmerge : ∃ e, GetSessions_merge 1 st cfg Unbound = Raise e ∧
                          (cfg = None → e = UnboundLocalError "session_completion")).
    { unfold GetSessions_merge,
        sessions.CopyAttributesFromSessionConfiguration, except_ValueError.
      destruct cfg as [c|]; [case_decide|]; cbn;
        (eexists; split; [reflexivity|]; by intros). }
    destruct Hmerge as (e & -> & He). cbn.
    split; [done|]. exists e. split; [done|].
    intros _ Hnone. apply He.
    destruct Hcfg as [(_ & -> & _)|(c & g & Hg & _)]; [done|].
    by rewrite Hnone in Hg.
  - split; [done|]. exists e. split; [done|].
    intros Hne Hnone. exfalso.
    unfold GetSessions_pull in Hpull.
    destruct (session_start_generator f) as [|st g]; [done|]. cbn in Hpull.
    rewrite Hcomp, Hnone in Hpull. done.
Qed.

End sessions_of_every_store.


Lemma GetSessions_sessions_follow_starts_witness :
  yielded (fst (GetSessions examples.store_without_second_completion)) !! 0
  = Some (examples.completed_session "a") ∧
  ∃ st,
    memory.containers_of _CONTAINER_TYPE_SESSION_START
      (backend examples.store_without_second_completion) !! 0 = Some st ∧
    sessions.start (examples.completed_session "a") = Some (attributes st) ∧
    sessions.identifier (examples.completed_session "a")
    = sessions.session_identifier st.
Proof.
  split; [reflexivity|].
  apply (GetSessions_sessions_follow_starts
           examples.store_without_second_completion
           examples.store_without_second_completion _ 0
           (examples.completed_session "a")
           (GetSessions_generators_memory
              examples.store_without_second_completion eq_refl)).
  reflexivity.
Defined.

Lemma store_with_two_sessions_aligned :
  aligned 2
    {| session_start_generator :=
         memory.containers_of _CONTAINER_TYPE_SESSION_START
           (backend scenarios.store_with_two_sessions);
       session_completion_generator :=
         memory.containers_of _CONTAINER_TYPE_SESSION_COMPLETION
           (backend scenarios.store_with_two_sessions);
       session_configuration_generator :=
         if bool_decide
              (memory.containers_of _CONTAINER_TYPE_SESSION_CONFIGURATION
                 (backend scenarios.store_with_two_sessions) = [])
         then None
         else Some (memory.containers_of _CONTAINER_TYPE_SESSION_CONFIGURATION
                      (backend scenarios.store_with_two_sessions));
       session_completion := Unbound |}.
Proof.
  vm_compute.
  intros [|[|i]] Hi; [| |lia];
    (eexists _, _; split; [reflexivity|]; split; [reflexivity|];
     split; [reflexivity|]; eexists; split; reflexivity).
Qed.

Lemma GetSessions_of_aligned_records_witness :
  _last_session scenarios.store_with_two_sessions = 2 ∧
  raised (fst (GetSessions scenarios.store_with_two_sessions)) = None ∧
  length (yielded (fst (GetSessions scenarios.store_with_two_sessions))) = 2.
Proof.
  split; [reflexivity|].
  destruct (GetSessions_of_aligned_records
              scenarios.store_with_two_sessions
              scenarios.store_with_two_sessions _
              (GetSessions_generators_memory
                 scenarios.store_with_two_sessions eq_refl)
              store_with_two_sessions_aligned) as (Hraised & Hlength & _).
  split; [exact Hraised|exact Hlength].
Defined.

Lemma GetSessions_missing_session_start_witness :
  _last_session scenarios.store_with_lost_start = 2 ∧
  length (memory.containers_of _CONTAINER_TYPE_SESSION_START
            (backend scenarios.store_with_lost_start)) = 1 ∧
  ∃ e, raised (fst (GetSessions scenarios.store_with_lost_start)) = Some e ∧
       (length (yielded (fst (GetSessions scenarios.store_with_lost_start))) ≤ 1)%nat ∧
       (length (yielded (fst (GetSessions scenarios.store_with_lost_start))) = 1 →
        e = IOError ("Missing session start: " ++ format_d 2)).
Proof.
  split; [reflexivity|]. split; [reflexivity|].
  apply (GetSessions_missing_session_start
           scenarios.store_with_lost_start scenarios.store_with_lost_start _
           (GetSessions_generators_memory
              scenarios.store_with_lost_start eq_refl)).
  vm_compute. lia.
Defined.

Lemma GetSessions_without_completions_witness :
  memory.containers_of _CONTAINER_TYPE_SESSION_COMPLETION
    (backend examples.store_with_start_only) = [] ∧
  (0 < _last_session examples.store_with_start_only)%nat ∧
  yielded (fst (GetSessions examples.store_with_start_only)) = [] ∧
  ∃ e, raised (fst (GetSessions examples.store_with_start_only)) = Some e ∧
       (memory.containers_of _CONTAINER_TYPE_SESSION_START
          (backend examples.store_with_start_only) ≠ [] →
        (if bool_decide
              (memory.containers_of _CONTAINER_TYPE_SESSION_CONFIGURATION
                 (backend examples.store_with_start_only) = [])
         then None
         else Some (memory.containers_of _CONTAINER_TYPE_SESSION_CONFIGURATION
                      (backend examples.store_with_start_only))) = None →
        e = UnboundLocalError "session_completion").
Proof.
  split; [reflexivity|]. split; [vm_compute; lia|].
  apply (GetSessions_without_completions
           examples.store_with_start_only examples.store_with_start_only _
           (GetSessions_generators_memory
              examples.store_with_start_only eq_refl)).
  - reflexivity.
  - vm_compute. lia.
Defined.

(** ** What a yielded session holds *)

Lemma GetSessions_merge_return_merged session_index st cfg comp session :
  GetSessions_merge session_index st cfg comp = Return session →
  ∃ c, comp = Bound c ∧ session = merged_session st cfg c.
Proof.
  unfold GetSessions_merge, sessions.CopyAttributesFromSessionConfiguration,
    sessions.CopyAttributesFromSessionCompletion,
    sessions.CopyAttributesFromSessionStart, except_ValueError, read_local,
    merged_session.
  destruct cfg as [k|]; [case_decide|]; destruct comp as [|d];
    try case_decide; cbn in *; try done; intros [= <-]; by exists d.
Qed.

Lemma GetSessions_loop_complete count session_index f :
  Forall (λ session,
            is_Some (sessions.completion session) ∧
            (is_Some (sessions.configuration session)
             ↔ is_Some (session_configuration_generator f)))
    (yielded (GetSessions_loop count session_index f)).
Proof.
  revert session_index f.
  induction count as [|count IH]; intros session_index f; cbn; [constructor|].
  destruct (GetSessions_body session_index f) as [[session f']|e] eqn:Hbody;
    cbn; [|constructor].
  destruct (GetSessions_body_return _ _ _ _ Hbody)
    as (st & cfg & comp & Hpull & Hmerge).
  destruct (GetSessions_pull_return _ _ _ _ _ _ Hpull) as (_ & _ & _ & Hcfg).
  destruct (GetSessions_merge_return_merged _ _ _ _ _ Hmerge) as (c & _ & ->).
  assert (Hsame : is_Some (session_configuration_generator f')
                  ↔ is_Some (session_configuration_generator f)).
  { destruct Hcfg as [(-> & _ & ->)|(k & g & -> & _ & ->)]; [done|].
    split; intros _; eauto. }
  constructor.
  - split; [by eexists|]. cbn.
    destruct Hcfg as [(-> & -> & _)|(k & g & -> & -> & _)]; cbn.
    + split; by intros [? [=]].
    + split; intros _; eauto.
  - eapply Forall_impl; [apply IH|]. cbn. intros session [H1 H2].
    split; [done|]. by rewrite H2.
Qed.

Lemma GetSessions_loop_missing_configuration count session_index f g :
  session_configuration_generator f = Some g →
  (length g < count)%nat →
  ∃ e, raised (GetSessions_loop count session_index f) = Some e ∧
       (length (yielded (GetSessions_loop count session_index f)) ≤ length g)%nat ∧
       (length (yielded (GetSessions_loop count session_index f)) = length g →
        (length g < length (session_start_generator f))%nat →
        e = IOError ("Missing session configuration: "
                     ++ format_d (session_index + length g))).
Proof.
  revert session_index f g.
  induction count as [|count IH]; intros session_index f g Hg Hlt; [lia|]. cbn.
  destruct (GetSessions_body session_index f) as [[session f']|e] eqn:Hbody; cbn.
  - destruct (GetSessions_body_return _ _ _ _ Hbody)
      as (st & cfg & comp & Hpull & _).
    destruct (GetSessions_pull_return _ _ _ _ _ _ Hpull)
      as (Hstart & _ & _ & [(Hnone & _)|(k & g' & Hsome & _ & Hg')]);
      [by rewrite Hg in Hnone|].
    rewrite Hg in Hsome. injection Hsome as ->. cbn in *.
    destruct (IH (S session_index) f' g' Hg' ltac:(lia)) as (e & He & Hle & Hmsg).
    exists e. split; [done|]. split; [lia|].
    intros Hlen Hstarts. rewrite Hstart in Hstarts. cbn in Hstarts.
    rewrite Hmsg by lia. by rewrite Nat.add_succ_r.
  - exists e. split; [done|]. split; [lia|].
    intros Hlen Hstarts. symmetry in Hlen. apply length_zero_iff_nil in Hlen.
    subst g. cbn in Hstarts.
    unfold GetSessions_body in Hbody.
    rewrite GetSessions_pull_missing_configuration in Hbody;
      [|by destruct (session_start_generator f); [cbn in Hstarts; lia|]|done].
    injection Hbody as <-. by rewrite Nat.add_0_r.
Qed.

Section sessions_more.
Context {B : Type} {store_backend : StoreBackend B}.

(** X16. Every session [GetSessions] yields has a session completion
    merged into it; it has a session configuration exactly when the store
    has session configurations.  A session without its completion is never
    yielded. *)
Theorem GetSessions_sessions_are_complete (s s' : BaseStore B) f :
  GetSessions_generators s = (Return f, s') →
  Forall (λ session,
            is_Some (sessions.completion session) ∧
            (is_Some (sessions.configuration session)
             ↔ is_Some (session_configuration_generator f)))
    (yielded (fst (GetSessions s))).
Proof.
  intros Hgen. unfold GetSessions. rewrite Hgen. cbn [fst].
  apply GetSessions_loop_complete.
Qed.

(** X17. When the store has session configurations, but fewer than
    [_last_session], [GetSessions] raises: it yields no more sessions than
    there are configurations, and when it has yielded one for each and
    there is a further session start, the exception is the I/O error of the
    missing session configuration, with the index after the last
    configuration. *)
Theorem GetSessions_missing_session_configuration (s s' : BaseStore B) f g :
  GetSessions_generators s = (Return f, s') →
  session_configuration_generator f = Some g →
  (length g < _last_session s')%nat →
  ∃ e, raised (fst (GetSessions s)) = Some e ∧
       (length (yielded (fst (GetSessions s))) ≤ length g)%nat ∧
       (length (yielded (fst (GetSessions s))) = length g →
        (length g < length (session_start_generator f))%nat →
        e = IOError ("Missing session configuration: "
                     ++ format_d (1 + length g))).
Proof.
  intros Hgen. unfold GetSessions. rewrite Hgen. cbn [fst].
  apply GetSessions_loop_missing_configuration.
Qed.

End sessions_more.

(** ** The profiler setters *)

Section setters.
Context {B : Type} {serializer : Serializer}.

(** X18. What [SetSerializersProfiler] sets is what serialization uses:
    after it, [_SerializeAttributeContainer] leaves the profiler with a
    [StartTiming] and a [StopTiming] more than it was given, and after
    [SetSerializersProfiler(None)] it leaves the store as the setter left
    it.  [SetStorageProfiler] changes neither the outcome of the
    serialization nor the serializers profiler. *)
Theorem SetSerializersProfiler_is_used
    (profiler storage_profiler : option (list profiler_call))
    (c : AttributeContainer) (s : BaseStore B) :
  _serializers_profiler
    (snd (_SerializeAttributeContainer c (snd (SetSerializersProfiler profiler s))))
  = (λ calls, calls ++ [StartTiming (CONTAINER_TYPE c);
                        StopTiming (CONTAINER_TYPE c)])%list <$> profiler ∧
  snd (_SerializeAttributeContainer c (snd (SetSerializersProfiler None s)))
  = snd (SetSerializersProfiler None s) ∧
  fst (_SerializeAttributeContainer c (snd (SetStorageProfiler storage_profiler s)))
  = fst (_SerializeAttributeContainer c s) ∧
  _serializers_profiler
    (snd (_SerializeAttributeContainer c
            (snd (SetStorageProfiler storage_profiler s))))
  = _serializers_profiler (snd (_SerializeAttributeContainer c s)).
Proof.
  rewrite !SerializeAttributeContainer_outcome_state. cbn.
  unfold profiled. cbn.
  repeat split.
  - by destruct profiler.
  - by destruct (_serializers_profiler s).
Qed.

End setters.

Lemma GetSessions_sessions_are_complete_witness :
  GetSessions_generators scenarios.store_with_two_sessions
  = (Return (scenarios.frame_of scenarios.store_with_two_sessions),
     scenarios.store_with_two_sessions) ∧
  Forall (λ session,
            is_Some (sessions.completion session) ∧
            (is_Some (sessions.configuration session)
             ↔ is_Some (session_configuration_generator
                          (scenarios.frame_of scenarios.store_with_two_sessions))))
    (yielded (fst (GetSessions scenarios.store_with_two_sessions))).
Proof.
  split;
    [exact (GetSessions_generators_memory
              scenarios.store_with_two_sessions eq_refl)|].
  exact (GetSessions_sessions_are_complete
           scenarios.store_with_two_sessions scenarios.store_with_two_sessions
           (scenarios.frame_of scenarios.store_with_two_sessions)
           (GetSessions_generators_memory
              scenarios.store_with_two_sessions eq_refl)).
Defined.

Lemma GetSessions_missing_session_configuration_witness :
  _last_session scenarios.store_with_one_configuration = 2 ∧
  length (memory.containers_of _CONTAINER_TYPE_SESSION_CONFIGURATION
            (backend scenarios.store_with_one_configuration)) = 1 ∧
  ∃ e, raised (fst (GetSessions scenarios.store_with_one_configuration)) = Some e ∧
       (length (yielded (fst (GetSessions scenarios.store_with_one_configuration)))
        ≤ 1)%nat ∧
       (length (yielded (fst (GetSessions scenarios.store_with_one_configuration)))
        = 1 →
        (1 < length (memory.containers_of _CONTAINER_TYPE_SESSION_START
                       (backend scenarios.store_with_one_configuration)))%nat →
        e = IOError ("Missing session configuration: " ++ format_d 2)).
Proof.
  split; [reflexivity|]. split; [reflexivity|].
  apply (GetSessions_missing_session_configuration
           scenarios.store_with_one_configuration
           scenarios.store_with_one_configuration
           (scenarios.frame_of scenarios.store_with_one_configuration)
           (memory.containers_of _CONTAINER_TYPE_SESSION_CONFIGURATION
              (backend scenarios.store_with_one_configuration))
           (GetSessions_generators_memory
              scenarios.store_with_one_configuration eq_refl)).
  - reflexivity.
  - vm_compute. lia.
Defined.

(** The store with one configuration for two sessions: the first session,
    then the I/O error for the second. *)
Example GetSessions_one_configuration :
  fst (GetSessions scenarios.store_with_one_configuration)
  = {| yielded :=
         [merged_session (examples.session_start "a")
            (Some (examples.session_configuration "a"))
            (examples.session_completion "a")];
       raised := Some (IOError "Missing session configuration: 2") |}.
Proof. vm_compute. reflexivity. Qed.
